(** * privatbank_exchange.py: exchange-rate retrieval and the command server

    A shallow embedding of [src/privatbank_exchange.py]:
    - [PrivatBankCurrencyRatesFetcher.fetch_rates] and [_parse_response],
    - [CurrencyRatesService.get_rates_for_days],
    - the websocket handler [exchange_command].

    Python values are modelled by [pyval]; a Python [dict] is an association
    list in insertion order; an exception is a value of [exn] and a call that
    may raise returns a [result].  The outside world (the clock, the remote
    endpoint, the order in which awaited tasks finish) is a [world] record
    that the functions read. *)

From Stdlib Require Import List String Ascii ZArith Lia Bool Arith.
From Stdlib Require Import DecimalString Sorted.
Import ListNotations.

Set Warnings "-register-all".

Local Open Scope string_scope.
Local Open Scope Z_scope.

(* ===================================================================== *)
(** ** Python values and exceptions *)
(* ===================================================================== *)

(** The values [json] decoding produces.  A float is kept as the text
    [repr] gives for it ([nan], [inf] and [-inf] included): no arithmetic is
    ever done on a rate. *)
Inductive pyval : Type :=
| PNone
| PBool (b : bool)
| PInt (z : Z)
| PFloat (repr : string)
| PStr (s : string)
| PList (l : list pyval)
| PDict (d : list (string * pyval)).

(** A [dict] with string keys, in insertion order. *)
Definition dict := list (string * pyval).

(** The exception classes the program can meet.  [JSONDecodeError] and
    [UnicodeDecodeError] are subclasses of [ValueError]; [ValueError msg] is
    a plain [ValueError] with its message. *)
Inductive exn : Type :=
| ClientError
| TimeoutError
| JSONDecodeError
| UnicodeDecodeError
| ValueError (msg : string)
| AttributeError
| TypeError
| IndexError
| RecursionError.

Definition is_ClientError (e : exn) : bool :=
  match e with ClientError => true | _ => false end.

Definition is_ValueError (e : exn) : bool :=
  match e with
  | JSONDecodeError | UnicodeDecodeError | ValueError _ => true
  | _ => false
  end.

Inductive result (A : Type) : Type :=
| Ok (a : A)
| Raise (e : exn).
Arguments Ok {A} a.
Arguments Raise {A} e.

Definition bind {A B : Type} (r : result A) (k : A -> result B) : result B :=
  match r with
  | Ok a => k a
  | Raise e => Raise e
  end.

Notation "x <- r ;; k" := (bind r (fun x => k))
  (at level 61, r at next level, right associativity).

(** [try: r except p => h]: the handler [h] runs when [r] raises an
    exception of a class [p] accepts. *)
Definition try_except {A : Type} (r : result A) (p : exn -> bool)
    (h : exn -> result A) : result A :=
  match r with
  | Ok a => Ok a
  | Raise e => if p e then h e else Raise e
  end.

(* ===================================================================== *)
(** ** dict operations *)
(* ===================================================================== *)

(** [d.get(k)] on a dict: [None] of the option when the key is missing. *)
Fixpoint dict_lookup (k : string) (d : dict) : option pyval :=
  match d with
  | [] => None
  | (k', v) :: d' => if String.eqb k k' then Some v else dict_lookup k d'
  end.

(** [d[k] = v]: an existing key keeps its place, a new key goes last. *)
Fixpoint dict_set (k : string) (v : pyval) (d : dict) : dict :=
  match d with
  | [] => [(k, v)]
  | (k', v') :: d' =>
      if String.eqb k k' then (k', v) :: d' else (k', v') :: dict_set k v d'
  end.

Definition dict_keys (d : dict) : list string := map fst d.

(** Truth value of a dict: [bool(d)]. *)
Definition truthy (d : dict) : bool :=
  match d with [] => false | _ => true end.

(** [x.get(k, default)]: only a dict has [get]. *)
Definition py_get (x : pyval) (k : string) (default : pyval) : result pyval :=
  match x with
  | PDict d =>
      Ok (match dict_lookup k d with Some v => v | None => default end)
  | _ => Raise AttributeError
  end.

(** The elements a [for] loop visits: a list gives its items, a dict its
    keys, a string its characters; the other values are not iterable. *)
Definition py_iter (x : pyval) : result (list pyval) :=
  match x with
  | PList l => Ok l
  | PDict d => Ok (map (fun kv => PStr (fst kv)) d)
  | PStr s => Ok (map (fun c => PStr (String c EmptyString))
                      (list_ascii_of_string s))
  | _ => Raise TypeError
  end.

(** [x in currencies] for a list of strings: only an equal string is in. *)
Definition py_in (x : pyval) (currencies : list string) : bool :=
  match x with
  | PStr s => existsb (String.eqb s) currencies
  | _ => false
  end.

(* ===================================================================== *)
(** ** PrivatBankCurrencyRatesFetcher *)
(* ===================================================================== *)

(** One turn of the loop of [_parse_response].  A currency that is not a
    string equals none of the requested codes. *)
Definition parse_rate (currencies : list string) (rates : dict)
    (rate : pyval) : result dict :=
  cur <- py_get rate "currency" PNone ;;
  match cur with
  | PStr c =>
      if py_in cur currencies then
        sale <- py_get rate "saleRate" PNone ;;
        purchase <- py_get rate "purchaseRate" PNone ;;
        Ok (dict_set c (PDict [("sale", sale); ("purchase", purchase)]) rates)
      else Ok rates
  | _ => Ok rates
  end.

Fixpoint parse_rates (currencies : list string) (rates : dict)
    (items : list pyval) : result dict :=
  match items with
  | [] => Ok rates
  | rate :: items' =>
      rates' <- parse_rate currencies rates rate ;;
      parse_rates currencies rates' items'
  end.

Definition _parse_response (data : pyval) (date : string)
    (currencies : list string) : result dict :=
  xs <- py_get data "exchangeRate" (PList []) ;;
  items <- py_iter xs ;;
  rates <- parse_rates currencies [] items ;;
  Ok (if truthy rates then [(date, PDict rates)] else []).

Definition string_of_Z (z : Z) : string :=
  NilZero.string_of_int (Z.to_int z).

(** The most digits [int] and [json] read in one integer: the default of
    [sys.int_max_str_digits]. *)
Definition int_max_str_digits : Z := 4300.

(** The message of the [ValueError] for an integer of [digits] digits,
    more than that limit. *)
Definition digit_limit_message (digits : Z) : string :=
  "Exceeds the limit (4300 digits) for integer string conversion: value has "
    ++ string_of_Z digits
    ++ " digits; use sys.set_int_max_str_digits() to increase the limit".

(** What [response.json()] does with the body of a response: reading the
    body, decoding its bytes, parsing the JSON text. *)
Inductive body_outcome : Type :=
| WrongContentType          (* aiohttp.ContentTypeError, a ClientError *)
| ReadFailed                (* the body breaks off: a ClientError *)
| ReadTimedOut              (* asyncio.TimeoutError *)
| NotUnicode                (* UnicodeDecodeError *)
| Malformed                 (* json.JSONDecodeError *)
| DigitLimit (digits : Z)   (* ValueError: an integer of too many digits *)
| TooDeep                   (* RecursionError *)
| Decoded (data : pyval).

(** What one GET request does. *)
Inductive http_outcome : Type :=
| ConnectionFailed          (* a subclass of aiohttp.ClientError *)
| TimedOut                  (* asyncio.TimeoutError *)
| Responded (status : Z) (body : body_outcome).

(** [response.raise_for_status()]: a status of 400 or more raises
    [ClientResponseError], a [ClientError]. *)
Definition raise_for_status (status : Z) : result unit :=
  if 400 <=? status then Raise ClientError else Ok tt.

Definition response_json (body : body_outcome) : result pyval :=
  match body with
  | WrongContentType => Raise ClientError
  | ReadFailed => Raise ClientError
  | ReadTimedOut => Raise TimeoutError
  | NotUnicode => Raise UnicodeDecodeError
  | Malformed => Raise JSONDecodeError
  | DigitLimit digits => Raise (ValueError (digit_limit_message digits))
  | TooDeep => Raise RecursionError
  | Decoded data => Ok data
  end.

Definition session_get (o : http_outcome) : result (Z * body_outcome) :=
  match o with
  | ConnectionFailed => Raise ClientError
  | TimedOut => Raise TimeoutError
  | Responded status body => Ok (status, body)
  end.

(** [fetch_rates]; [remote date] is what the request for [date] meets.
    The message printed on standard output in the handler is not kept. *)
Definition fetch_rates (remote : string -> http_outcome) (date : string)
    (currencies : list string) : result dict :=
  try_except
    (response <- session_get (remote date) ;;
     _ <- raise_for_status (fst response) ;;
     data <- response_json (snd response) ;;
     _parse_response data date currencies)
    is_ClientError
    (fun _ => Ok []).

(* ===================================================================== *)
(** ** Dates: [strftime("%d.%m.%Y")] *)
(* ===================================================================== *)

(** A [datetime] is kept as the proleptic Gregorian ordinal of its day
    ([date.toordinal()]: day 1 is 0001-01-01); the time of day plays no part
    in ["%d.%m.%Y"], and [timedelta(days=i)] moves the ordinal by [i]. *)
Definition civil_of_ordinal (n : Z) : Z * Z * Z :=
  let z := n + 305 in
  let era := z / 146097 in
  let doe := z mod 146097 in
  let yoe := (doe - doe / 1460 + doe / 36524 - doe / 146096) / 365 in
  let doy := doe - (365 * yoe + yoe / 4 - yoe / 100) in
  let mp := (5 * doy + 2) / 153 in
  let d := doy - (153 * mp + 2) / 5 + 1 in
  let m := if mp <? 10 then mp + 3 else mp - 9 in
  let y := yoe + era * 400 + (if m <=? 2 then 1 else 0) in
  (y, m, d).

Fixpoint zero_pad (width : nat) (s : string) : string :=
  match width with
  | O => s
  | S w => if Nat.ltb (String.length s) width then zero_pad w ("0" ++ s) else s
  end.

Definition strftime (n : Z) : string :=
  let '(y, m, d) := civil_of_ordinal n in
  zero_pad 2 (string_of_Z d) ++ "." ++ zero_pad 2 (string_of_Z m) ++ "."
    ++ zero_pad 4 (string_of_Z y).

(* ===================================================================== *)
(** ** CurrencyRatesService *)
(* ===================================================================== *)

(** [asyncio.gather] over the tasks: when every task returns, the results in the
    order of the tasks; otherwise the exception of the failing task that
    finishes first.  [finish i] is the rank at which task [i] finishes. *)
Fixpoint first_failure {A : Type} (finish : nat -> nat) (i : nat)
    (tasks : list (result A)) : option (nat * exn) :=
  match tasks with
  | [] => None
  | Ok _ :: ts => first_failure finish (S i) ts
  | Raise e :: ts =>
      match first_failure finish (S i) ts with
      | Some (r, e') =>
          if Nat.ltb r (finish i) then Some (r, e') else Some (finish i, e)
      | None => Some (finish i, e)
      end
  end.

Fixpoint returned {A : Type} (tasks : list (result A)) : list A :=
  match tasks with
  | [] => []
  | Ok a :: ts => a :: returned ts
  | Raise _ :: ts => returned ts
  end.

Definition gather {A : Type} (finish : nat -> nat)
    (tasks : list (result A)) : result (list A) :=
  match first_failure finish 0 tasks with
  | Some (_, e) => Raise e
  | None => Ok (returned tasks)
  end.

(** The interface [CurrencyRatesFetcher]: the first argument numbers the
    call, since two calls for one date need not meet the same answer. *)
Class CurrencyRatesFetcher : Type :=
  { fetcher_fetch_rates : nat -> string -> list string -> result dict }.

Definition PrivatBankCurrencyRatesFetcher
    (remote : nat -> string -> http_outcome) : CurrencyRatesFetcher :=
  {| fetcher_fetch_rates := fun i => fetch_rates (remote i) |}.

(** The tasks are numbered in the order of [dates]. *)
Definition enumerate {A : Type} (l : list A) : list (nat * A) :=
  combine (seq 0 (List.length l)) l.

Definition validation_message : string :=
  "Number of days must be between 1 and 10".

Section Service.

(** [now i]: the day of the [i]-th reading of [datetime.now()]. *)
Variable now : nat -> Z.
Variable finish : nat -> nat.
Context {fetcher : CurrencyRatesFetcher}.

(** [range(days)] *)
Definition range (days : Z) : list nat := seq 0 (Z.to_nat days).

(** The list [dates] of the source. *)
Definition window (days : Z) : list string :=
  map (fun i => strftime (now i - Z.of_nat i)) (range days).

(** The list [tasks] of the source, each task run to its end. *)
Definition fetch_all (dates : list string) (currencies : list string)
    : list (result dict) :=
  map (fun '(i, date) => fetcher_fetch_rates i date currencies)
      (enumerate dates).

Definition get_rates_for_days (days : Z) (currencies : list string)
    : result (list dict) :=
  if (days <? 1) || (10 <? days) then Raise (ValueError validation_message)
  else
    results <- gather finish (fetch_all (window days) currencies) ;;
    Ok (filter truthy results).

End Service.

(* ===================================================================== *)
(** ** [json.dumps(rates, indent=2, ensure_ascii=False)] *)
(* ===================================================================== *)

Definition dquote : string := String (ascii_of_nat 34) EmptyString.
Definition backslash : string := String (ascii_of_nat 92) EmptyString.
Definition newline : string := String (ascii_of_nat 10) EmptyString.

Definition hex_digit (n : nat) : ascii :=
  if Nat.ltb n 10 then ascii_of_nat (48 + n) else ascii_of_nat (87 + n).

(** The escape of one character inside a JSON string; with
    [ensure_ascii=False] only the quote, the backslash and the control
    characters are escaped. *)
Definition escape_char (c : ascii) : string :=
  let n := nat_of_ascii c in
  if Nat.eqb n 34 then backslash ++ dquote
  else if Nat.eqb n 92 then backslash ++ backslash
  else if Nat.eqb n 10 then backslash ++ "n"
  else if Nat.eqb n 13 then backslash ++ "r"
  else if Nat.eqb n 9 then backslash ++ "t"
  else if Nat.eqb n 8 then backslash ++ "b"
  else if Nat.eqb n 12 then backslash ++ "f"
  else if Nat.ltb n 32 then
    backslash ++ "u00"
      ++ String (hex_digit (Nat.div n 16))
           (String (hex_digit (Nat.modulo n 16)) EmptyString)
  else String c EmptyString.

Fixpoint escape (s : string) : string :=
  match s with
  | EmptyString => EmptyString
  | String c s' => escape_char c ++ escape s'
  end.

Definition json_string (s : string) : string := dquote ++ escape s ++ dquote.

Fixpoint spaces (n : nat) : string :=
  match n with
  | O => EmptyString
  | S n' => " " ++ spaces n'
  end.

Fixpoint join (sep : string) (l : list string) : string :=
  match l with
  | [] => EmptyString
  | [x] => x
  | x :: l' => x ++ sep ++ join sep l'
  end.

(** An opened container at nesting [level]: one item per line, two spaces
    of indentation per level. *)
Definition block (open close : string) (level : nat) (items : list string)
    : string :=
  match items with
  | [] => open ++ close
  | _ =>
      open ++ newline ++ spaces (2 * S level)
        ++ join ("," ++ newline ++ spaces (2 * S level)) items
        ++ newline ++ spaces (2 * level) ++ close
  end.

(** The text of a float: its [repr], but for the three values JSON has
    no number for. *)
Definition float_text (repr : string) : string :=
  if String.eqb repr "nan" then "NaN"
  else if String.eqb repr "inf" then "Infinity"
  else if String.eqb repr "-inf" then "-Infinity"
  else repr.

Fixpoint dumps_at (level : nat) (v : pyval) {struct v} : string :=
  match v with
  | PNone => "null"
  | PBool true => "true"
  | PBool false => "false"
  | PInt z => string_of_Z z
  | PFloat repr => float_text repr
  | PStr s => json_string s
  | PList l => block "[" "]" level (map (dumps_at (S level)) l)
  | PDict d =>
      block "{" "}" level
        (map (fun kv => json_string (fst kv) ++ ": "
                          ++ dumps_at (S level) (snd kv)) d)
  end.

Definition json_dumps (rates : list dict) : string :=
  dumps_at 0 (PList (map PDict rates)).

(* ===================================================================== *)
(** ** Text of a message: [strip], [split], [int] *)
(* ===================================================================== *)

(** A Python [str]: the sequence of its code points. *)
Definition str : Type := list N.

(** The [str] of a literal of ASCII characters. *)
Definition lit (s : string) : str :=
  map N_of_ascii (list_ascii_of_string s).

(** [a == b] on two [str]. *)
Fixpoint str_eqb (a b : str) : bool :=
  match a, b with
  | [], [] => true
  | x :: a', y :: b' => N.eqb x y && str_eqb a' b'
  | _, _ => false
  end.

Definition between (lo hi c : N) : bool := N.leb lo c && N.leb c hi.

(** [c.isspace()]: the white space [strip] and [split] cut at, ASCII and
    beyond (U+0085, U+00A0, U+1680, U+2000 to U+200A, U+2028, U+2029, U+202F,
    U+205F, U+3000). *)
Definition is_space (c : N) : bool :=
  between 9 13 c || between 28 32 c || N.eqb c 133 || N.eqb c 160
  || N.eqb c 5760 || between 8192 8202 c || N.eqb c 8232 || N.eqb c 8233
  || N.eqb c 8239 || N.eqb c 8287 || N.eqb c 12288.

Fixpoint lstrip_by (space : N -> bool) (s : str) : str :=
  match s with
  | [] => []
  | c :: s' => if space c then lstrip_by space s' else s
  end.

Fixpoint rstrip_by (space : N -> bool) (s : str) : str :=
  match s with
  | [] => []
  | c :: s' =>
      match rstrip_by space s' with
      | [] => if space c then [] else [c]
      | t => c :: t
      end
  end.

Definition lstrip (s : str) : str := lstrip_by is_space s.
Definition rstrip (s : str) : str := rstrip_by is_space s.
Definition strip (s : str) : str := rstrip (lstrip s).

(** [s.split()]: the maximal runs of characters that are not white space.
    [cur] holds the run being read, in reverse. *)
Fixpoint split_from (cur : list N) (s : str) : list str :=
  let flush (rest : list str) :=
    match cur with
    | [] => rest
    | _ => rev cur :: rest
    end in
  match s with
  | [] => flush []
  | c :: s' =>
      if is_space c then flush (split_from [] s')
      else split_from (c :: cur) s'
  end.

Definition split (s : str) : list str := split_from [] s.

(** The digit zero of each run of ten decimal digits of Unicode 14.0, the
    database of CPython 3.11: ASCII, Arabic-Indic, ..., fullwidth, ... *)
Definition digit_zeros : list N :=
  [48; 1632; 1776; 1984; 2406; 2534; 2662; 2790; 2918; 3046; 3174; 3302;
   3430; 3558; 3664; 3792; 3872; 4160; 4240; 6112; 6160; 6470; 6608; 6784;
   6800; 6992; 7088; 7232; 7248; 42528; 43216; 43264; 43472; 43504; 43600;
   44016; 65296; 66720; 68912; 69734; 69872; 69942; 70096; 70384; 70736;
   70864; 71248; 71360; 71472; 71904; 72016; 72784; 73040; 73120; 92768;
   92864; 93008; 120782; 120792; 120802; 120812; 120822; 123200; 123632;
   125264; 130032]%N.

(** [Py_UNICODE_TODECIMAL]: the value of a decimal digit, of any script. *)
Definition decimal_value (c : N) : option Z :=
  match find (fun zero => between zero (zero + 9) c) digit_zeros with
  | Some zero => Some (Z.of_N (c - zero))
  | None => None
  end.

(** Decimal digits, single underscores allowed between two digits;
    [count] is the number of digits read.  A number of more than
    [int_max_str_digits] digits is refused. *)
Fixpoint digits_value (acc count : Z) (after_digit : bool) (s : str)
    : option Z :=
  match s with
  | [] =>
      if after_digit && (count <=? int_max_str_digits) then Some acc
      else None
  | c :: s' =>
      match decimal_value c with
      | Some d => digits_value (10 * acc + d) (count + 1) true s'
      | None =>
          if N.eqb c 95 then
            if after_digit then digits_value acc count false s' else None
          else None
      end
  end.

(** The white space [int] drops at both ends: tab to carriage return and
    the space, and the white space beyond ASCII. *)
Definition int_space (c : N) : bool :=
  between 9 13 c || N.eqb c 32 || (N.leb 128 c && is_space c).

(** [int(token)]: white space at the ends, a sign, the digits.  [None] is
    [ValueError]. *)
Definition py_int (token : str) : option Z :=
  match rstrip_by int_space (lstrip_by int_space token) with
  | c :: s =>
      if N.eqb c 43 then digits_value 0 0 false s
      else if N.eqb c 45 then option_map Z.opp (digits_value 0 0 false s)
      else digits_value 0 0 false (c :: s)
  | [] => None
  end.

(** The message of the [ValueError] of [int] is not kept. *)
Definition int (token : str) : result Z :=
  match py_int token with
  | Some z => Ok z
  | None => Raise (ValueError "invalid literal for int() with base 10")
  end.

(* ===================================================================== *)
(** ** The websocket handler [exchange_command] *)
(* ===================================================================== *)

(** What the handler meets while it serves one message. *)
Record world : Type :=
  { now : nat -> Z;                          (* readings of datetime.now() *)
    finish : nat -> nat;                     (* order the fetches end in *)
    remote : nat -> string -> http_outcome;  (* the rate source *)
    stamp : string }.                        (* str(datetime.now()) at log time *)

Definition msg_prompt : string :=
  "Please provide the number of days (1-10) for the exchange rates.".
Definition msg_range : string :=
  "Error: The number of days must be between 1 and 10.".
Definition msg_format : string :=
  "Error: Please provide a valid number of days.".
Definition msg_invalid : string :=
  "Invalid command. Use 'exchange <days>' to get rates.".

Definition audit_line (w : world) (days : Z) : string :=
  stamp w ++ " - exchange " ++ string_of_Z days ++ " days command executed"
    ++ newline.

(** The effects of a piece of the handler: the texts given to
    [websocket.send], the lines appended to [exchange_commands.log], and the
    exception it ends with, if any. *)
Record effects : Type :=
  { replies : list string;
    logged : list string;
    raised : option exn }.

Definition silent : effects :=
  {| replies := []; logged := []; raised := None |}.
Definition send (text : string) : effects :=
  {| replies := [text]; logged := []; raised := None |}.
Definition append_log (line : string) : effects :=
  {| replies := []; logged := [line]; raised := None |}.
Definition raise (e : exn) : effects :=
  {| replies := []; logged := []; raised := Some e |}.

(** Sequencing: what follows a raised exception does not run. *)
Definition andthen (a b : effects) : effects :=
  match raised a with
  | Some _ => a
  | None =>
      {| replies := replies a ++ replies b;
         logged := logged a ++ logged b;
         raised := raised b |}
  end.

(** [try: a except ValueError: h]; what [a] did before raising stays. *)
Definition except_ValueError (a h : effects) : effects :=
  match raised a with
  | Some e =>
      if is_ValueError e
      then andthen {| replies := replies a; logged := logged a;
                      raised := None |} h
      else a
  | None => a
  end.

(** The body of the [try] statement, lines 103 to 119 of the source. *)
Definition try_body (w : world) (token : str) : effects :=
  match int token with
  | Raise e => raise e
  | Ok days =>
      if (1 <=? days) && (days <=? 10) then
        match get_rates_for_days (now w) (finish w)
                (fetcher := PrivatBankCurrencyRatesFetcher (remote w))
                days ["EUR"; "USD"] with
        | Raise e => raise e
        | Ok rates =>
            andthen (send (json_dumps rates)) (append_log (audit_line w days))
        end
      else send msg_range
  end.

(** The body of the [async for] loop for one message. *)
Definition on_message (w : world) (message : str) : effects :=
  let command := split (strip message) in
  match command with
  | [] => raise IndexError
  | first :: _ =>
      if str_eqb first (lit "exchange") then
        match command with
        | [_] => send msg_prompt
        | [_; token] => except_ValueError (try_body w token) (send msg_format)
        | _ => silent
        end
      else send msg_invalid
  end.

(** The loop over the messages of one connection; message [k] is served in
    the world [worlds k].  An exception ends the loop. *)
Fixpoint exchange_command_from (worlds : nat -> world) (k : nat)
    (messages : list str) : effects :=
  match messages with
  | [] => silent
  | message :: rest =>
      andthen (on_message (worlds k) message)
              (exchange_command_from worlds (S k) rest)
  end.

Definition exchange_command (worlds : nat -> world) (messages : list str)
    : effects :=
  exchange_command_from worlds 0 messages.

(* ===================================================================== *)
(** ** The command line: [parse_args] and [main] *)
(* ===================================================================== *)

(** [s.split(sep)] for a separator of one character: the pieces between
    the separators, empty pieces included. *)
Fixpoint split_on (sep : ascii) (s : string) : list string :=
  match s with
  | EmptyString => [EmptyString]
  | String c s' =>
      if Ascii.eqb c sep then EmptyString :: split_on sep s'
      else match split_on sep s' with
           | piece :: pieces => String c piece :: pieces
           | [] => [String c EmptyString]
           end
  end.

(** The namespace [argparse] hands back: the positional [days], already an
    [int], and the text of [--currencies] (["EUR,USD"] when not given).
    What [argparse] does with a command line it rejects is not kept. *)
Record namespace : Type :=
  { args_days : Z;
    args_currencies : string }.

(** A call that may end the process with [sys.exit]. *)
Inductive exit_or (A : Type) : Type :=
| Returned (a : A)
| SystemExit (code : Z) (printed : string).
Arguments Returned {A} a.
Arguments SystemExit {A} code printed.

Definition msg_cli_days : string :=
  "Error: Please provide a valid number of days (1-10)".

(** Lines 85 to 90 of the source. *)
Definition parse_args (args : namespace) : exit_or (Z * list string) :=
  if (args_days args <? 1) || (10 <? args_days args)
  then SystemExit 1 msg_cli_days
  else Returned (args_days args, split_on "," (args_currencies args)).




(* ===================================================================== *)
(** * Vocabulary of the properties and sample worlds *)
(* ===================================================================== *)

(** The exceptions [_parse_response] can end with. *)
Definition shape_error (e : exn) : Prop := e = AttributeError \/ e = TypeError.

(** The quote [_parse_response] builds from one element of the array. *)
Definition or_None (o : option pyval) : pyval :=
  match o with Some v => v | None => PNone end.

Definition quote_of (rate : dict) : pyval :=
  PDict [("sale", or_None (dict_lookup "saleRate" rate));
         ("purchase", or_None (dict_lookup "purchaseRate" rate))].

(** What one turn of the loop does, by the shape of the element. *)
Definition parse_rate_dict (currencies : list string) (rates : dict)
    (r : dict) : dict :=
  match dict_lookup "currency" r with
  | Some (PStr c) =>
      if existsb (String.eqb c) currencies then dict_set c (quote_of r) rates
      else rates
  | _ => rates
  end.

(** [daily date currencies d]: the mapping [d] holds the one [date], bound
    to a mapping that is not empty and has requested currencies as keys. *)
Definition daily (date : string) (currencies : list string) (d : dict)
    : Prop :=
  exists rates, d = [(date, PDict rates)] /\ rates <> [] /\
                Forall (fun c => In c currencies) (dict_keys rates).

(** The outcomes of a request that end in an [aiohttp.ClientError]. *)
Definition client_failure (o : http_outcome) : bool :=
  match o with
  | ConnectionFailed => true
  | TimedOut => false
  | Responded status body =>
      (400 <=? status)
      || match body with
         | WrongContentType | ReadFailed => true
         | _ => false
         end
  end.


(** The claim of C2 on the dates of a report: they start from [today] and
    go down by one day at each step. *)
Definition report_dates (out : list dict) : list string :=
  flat_map dict_keys out.

Definition consecutive_from (today : Z) (dates : list string) : Prop :=
  dates = map (fun i => strftime (today - Z.of_nat i))
              (seq 0 (List.length dates)).

(** A response with two matching currencies, and one with no rate. *)
Definition sample_rates : body_outcome :=
  Decoded (PDict
    [("bank", PStr "PB");
     ("exchangeRate",
      PList [PDict [("currency", PStr "USD"); ("saleRate", PFloat "41.5");
                    ("purchaseRate", PFloat "40.9")];
             PDict [("currency", PStr "GBP"); ("saleRate", PFloat "54.0")];
             PDict [("currency", PStr "EUR"); ("saleRate", PFloat "48.1")]])]).

Definition no_rates : body_outcome :=
  Decoded (PDict [("bank", PStr "PB"); ("exchangeRate", PList [])]).

(** On 03.11.2026 the source has no rate for 02.11.2026. *)
Definition gap_remote (i : nat) (date : string) : http_outcome :=
  if String.eqb date "02.11.2026" then Responded 200 no_rates
  else Responded 200 sample_rates.

(** The report of three days on 03.11.2026 when 02.11.2026 has no rate. *)
Definition sample_quotes : pyval :=
  PDict [("USD", PDict [("sale", PFloat "41.5"); ("purchase", PFloat "40.9")]);
         ("EUR", PDict [("sale", PFloat "48.1"); ("purchase", PNone)])].

Definition gap_report : list dict :=
  [[("03.11.2026", sample_quotes)]; [("01.11.2026", sample_quotes)]].

(** The service as the handler calls it. *)
Definition handler_rates (w : world) (days : Z) : result (list dict) :=
  get_rates_for_days (now w) (finish w)
    (fetcher := PrivatBankCurrencyRatesFetcher (remote w))
    days ["EUR"; "USD"].

(** The handler answered [text] and the loop went on with the messages
    that follow. *)
Definition answers_and_awaits (worlds : nat -> world) (k : nat)
    (message : str) (rest : list str) (text : string) : Prop :=
  on_message (worlds k) message
    = {| replies := [text]; logged := []; raised := None |}
  /\ exchange_command_from worlds k (message :: rest)
     = {| replies := text :: replies (exchange_command_from worlds (S k) rest);
          logged := logged (exchange_command_from worlds (S k) rest);
          raised := raised (exchange_command_from worlds (S k) rest) |}.

(** A world where the source answers every date with the sample rates. *)
Definition calm_world : world :=
  {| now := fun _ => 739923;
     finish := fun i => i;
     remote := fun _ _ => Responded 200 sample_rates;
     stamp := "2026-11-03 10:15:00.250000" |}.

(** A world where the body for 02.11.2026 is not JSON. *)
Definition garbled_world : world :=
  {| now := fun _ => 739923;
     finish := fun i => i;
     remote := fun _ date =>
       if String.eqb date "02.11.2026" then Responded 200 Malformed
       else Responded 200 sample_rates;
     stamp := "2026-11-03 10:15:00.250000" |}.

(** The quote a result of [_parse_response] holds for a currency. *)
Definition report_quote (d : dict) (date c : string) : option pyval :=
  match dict_lookup date d with
  | Some (PDict rates) => dict_lookup c rates
  | _ => None
  end.

(** [k in v] for a dict [v]. *)
Definition has_key (k : string) (v : pyval) : bool :=
  match v with
  | PDict d => match dict_lookup k d with Some _ => true | None => false end
  | _ => false
  end.

(** [isinstance(v, dict)] *)
Definition is_dict (v : pyval) : bool :=
  match v with PDict _ => true | _ => false end.

(** A decoded body [_parse_response] goes through without raising: a dict
    whose [exchangeRate], when present, can be iterated and yields dicts
    only. *)
Definition well_shaped (data : pyval) : bool :=
  match py_get data "exchangeRate" (PList []) with
  | Ok xs =>
      match py_iter xs with
      | Ok items => forallb is_dict items
      | Raise _ => false
      end
  | Raise _ => false
  end.

(** The requested currency an element of the array carries, if any. *)
Definition requested_currency (currencies : list string) (rate : pyval)
    : option string :=
  match rate with
  | PDict r =>
      match dict_lookup "currency" r with
      | Some (PStr c) =>
          if existsb (String.eqb c) currencies then Some c else None
      | _ => None
      end
  | _ => None
  end.

Definition relevant (currencies : list string) (rate : pyval) : bool :=
  match requested_currency currencies rate with
  | Some _ => true
  | None => false
  end.

(** The requested currencies of the array, in the order of the array. *)
Fixpoint requested_in (currencies : list string) (items : list pyval)
    : list string :=
  match items with
  | [] => []
  | rate :: items' =>
      match requested_currency currencies rate with
      | Some c => c :: requested_in currencies items'
      | None => requested_in currencies items'
      end
  end.

(** A list without its repetitions, each element at its first place. *)
Definition add_once (acc : list string) (c : string) : list string :=
  if existsb (String.eqb c) acc then acc else acc ++ [c].

Definition first_occurrences (l : list string) : list string :=
  fold_left add_once l [].

(** The inverse of [civil_of_ordinal]: [date(y, m, d).toordinal()]. *)
Definition ordinal_of_civil (y m d : Z) : Z :=
  let y' := if m <=? 2 then y - 1 else y in
  let era := y' / 400 in
  let yoe := y' mod 400 in
  let mp := if 2 <? m then m - 3 else m + 9 in
  let doy := (153 * mp + 2) / 5 + d - 1 in
  let doe := yoe * 365 + yoe / 4 - yoe / 100 + doy in
  era * 146097 + doe - 305.

(** The number a run of ASCII digits writes. *)
Fixpoint read_digits (acc : Z) (s : string) : option Z :=
  match s with
  | EmptyString => Some acc
  | String c s' =>
      let n := Z.of_nat (nat_of_ascii c) in
      if (48 <=? n) && (n <=? 57) then read_digits (10 * acc + (n - 48)) s'
      else None
  end.

(** Reading a date key back: two digits, a dot, two digits, a dot, the
    year. *)
Definition strptime (s : string) : option Z :=
  match s with
  | String d1 (String d2 (String "." (String m1 (String m2
      (String "." year))))) =>
      match read_digits 0 (String d1 (String d2 EmptyString)),
            read_digits 0 (String m1 (String m2 EmptyString)),
            read_digits 0 year with
      | Some d, Some m, Some y => Some (ordinal_of_civil y m d)
      | _, _, _ => None
      end
  | _ => None
  end.

(** The ordinals of the dates from 1000-01-01 to 9999-12-31, the years
    ["%Y"] writes with four digits on every platform. *)
Definition min_ordinal : Z := 364878.
Definition max_ordinal : Z := 3652059.

(** The text of a day or a month: two characters that read back. *)
Definition two_digits_ok (k : Z) : bool :=
  match zero_pad 2 (string_of_Z k) with
  | String a (String b EmptyString) =>
      match read_digits 0 (String a (String b EmptyString)) with
      | Some v => v =? k
      | None => false
      end
  | _ => false
  end.

(** The text of a year: four characters that read back. *)
Definition year_ok (y : Z) : bool :=
  let s := zero_pad 4 (string_of_Z y) in
  Nat.eqb (String.length s) 4
  && match read_digits 0 s with
     | Some v => v =? y
     | None => false
     end.

(** [f] holds on the [n] integers from [z] on. *)
Fixpoint all_from (n : nat) (z : Z) (f : Z -> bool) : bool :=
  match n with
  | O => true
  | S k => f z && all_from k (z + 1) f
  end.

(** A world where no request gets through. *)
Definition outage_world : world :=
  {| now := fun _ => 739923;
     finish := fun i => i;
     remote := fun _ _ => ConnectionFailed;
     stamp := "2026-11-03 10:15:00.250000" |}.

(** A world where the request for 02.11.2026 times out. *)
Definition stalled_world : world :=
  {| now := fun _ => 739923;
     finish := fun i => i;
     remote := fun _ date =>
       if String.eqb date "02.11.2026" then TimedOut
       else Responded 200 sample_rates;
     stamp := "2026-11-03 10:15:00.250000" |}.

(** A world where the first date fails late and the third date early. *)
Definition racing_world : world :=
  {| now := fun _ => 739923;
     finish := fun i => (10 - i)%nat;
     remote := fun i _ =>
       match i with
       | O => Responded 200 Malformed
       | 2%nat => TimedOut
       | _ => Responded 200 sample_rates
       end;
     stamp := "2026-11-03 10:15:00.250000" |}.

(** A space, a no-break space, a tab and an ideographic space. *)
Definition blank_message : str := [32; 160; 9; 12288]%N.

(* ===================================================================== *)
(** * Properties *)
(* ===================================================================== *)

(** ** The text functions on sample inputs *)

Example strftime_2026_11_03 : strftime 739923 = "03.11.2026".
Proof. reflexivity. Qed.

Example strftime_leap_day : strftime 738945 = "29.02.2024".
Proof. reflexivity. Qed.

Example strftime_epoch : strftime 719163 = "01.01.1970".
Proof. reflexivity. Qed.

Example split_exchange_3 :
  split (strip (lit "  exchange   3 ")) = [lit "exchange"; lit "3"].
Proof. reflexivity. Qed.

Example int_examples :
  py_int (lit "7") = Some 7 /\ py_int (lit "007") = Some 7
  /\ py_int (lit "-3") = Some (-3) /\ py_int (lit "+10") = Some 10
  /\ py_int (lit "1_0") = Some 10 /\ py_int (lit "3.5") = None
  /\ py_int [] = None /\ py_int (lit "_1") = None
  /\ py_int (lit "abc") = None /\ py_int [1635%N] = Some 3.
Proof. repeat split; reflexivity. Qed.

(** White space and digits beyond ASCII, and the limit on digits. *)
Example split_no_break_space :
  split (strip (lit "exchange" ++ [160%N] ++ lit "1" ++ [12288%N])%list)
  = [lit "exchange"; lit "1"].
Proof. reflexivity. Qed.

Example int_digit_limit :
  py_int (repeat 48%N 4299 ++ lit "5")%list = Some 5
  /\ py_int (repeat 48%N 4300 ++ lit "5")%list = None
  /\ py_int ([160%N] ++ lit "-1_0" ++ [10%N])%list = Some (-10)
  /\ py_int ([28%N] ++ lit "5")%list = None.
Proof. repeat split; vm_compute; reflexivity. Qed.

Example float_text_examples :
  float_text "nan" = "NaN" /\ float_text "-inf" = "-Infinity"
  /\ float_text "41.5" = "41.5".
Proof. repeat split; reflexivity. Qed.

(** [exchange] followed by an Arabic-Indic three is served for three days;
    a day count of 4301 digits is refused by [int]. *)
Example unicode_day_count_served :
  logged (on_message calm_world (lit "exchange " ++ [1635%N])%list)
  = ["2026-11-03 10:15:00.250000 - exchange 3 days command executed"
       ++ newline].
Proof. vm_compute. reflexivity. Qed.

Example long_day_count_refused :
  on_message calm_world
    (lit "exchange " ++ repeat 48%N 4300 ++ lit "5")%list
  = send msg_format.
Proof. vm_compute. reflexivity. Qed.

(** ** dict lemmas *)

Lemma dict_set_nonempty (k : string) (v : pyval) (d : dict) :
  dict_set k v d <> [].
Proof.
  destruct d as [|[k' v'] d']; simpl; [discriminate|].
  destruct (String.eqb k k'); discriminate.
Qed.

Lemma dict_set_keys (k : string) (v : pyval) (d : dict) (x : string) :
  In x (dict_keys (dict_set k v d)) -> x = k \/ In x (dict_keys d).
Proof.
  induction d as [|[k' v'] d' IH]; simpl.
  - intros [H|[]]; auto.
  - destruct (String.eqb k k') eqn:E; simpl.
    + intros [H|H]; auto.
    + intros [H|H]; auto. destruct (IH H); auto.
Qed.

Lemma dict_lookup_set_same (k : string) (v : pyval) (d : dict) :
  dict_lookup k (dict_set k v d) = Some v.
Proof.
  induction d as [|[k' v'] d' IH]; simpl.
  - now rewrite String.eqb_refl.
  - destruct (String.eqb k k') eqn:E; simpl; rewrite E; auto.
Qed.

Lemma dict_lookup_set_other (k k0 : string) (v : pyval) (d : dict) :
  k <> k0 -> dict_lookup k (dict_set k0 v d) = dict_lookup k d.
Proof.
  intros Hne. induction d as [|[k' v'] d' IH]; simpl.
  - destruct (String.eqb_spec k k0); congruence.
  - destruct (String.eqb_spec k0 k'); simpl.
    + subst k'. destruct (String.eqb_spec k k0); congruence.
    + now rewrite IH.
Qed.

Lemma py_in_In (c : string) (currencies : list string) :
  py_in (PStr c) currencies = true -> In c currencies.
Proof.
  simpl. rewrite existsb_exists. intros (x & Hx & E).
  apply String.eqb_eq in E. now subst.
Qed.

Lemma In_py_in (c : string) (currencies : list string) :
  In c currencies -> py_in (PStr c) currencies = true.
Proof.
  intros H. simpl. rewrite existsb_exists. exists c. split; auto.
  apply String.eqb_refl.
Qed.

(** ** The result monad *)

Lemma bind_Ok {A B : Type} (r : result A) (k : A -> result B) (b : B) :
  bind r k = Ok b -> exists a, r = Ok a /\ k a = Ok b.
Proof. destruct r; simpl; [eauto | discriminate]. Qed.

Lemma bind_Raise {A B : Type} (r : result A) (k : A -> result B) (e : exn) :
  bind r k = Raise e -> r = Raise e \/ exists a, r = Ok a /\ k a = Raise e.
Proof. destruct r; simpl; [eauto | intros [= ->]; auto]. Qed.

Lemma py_get_Raise (x : pyval) (k : string) (v : pyval) (e : exn) :
  py_get x k v = Raise e -> e = AttributeError.
Proof. destruct x; simpl; congruence. Qed.

Lemma py_iter_Raise (x : pyval) (e : exn) :
  py_iter x = Raise e -> e = TypeError.
Proof. destruct x; simpl; congruence. Qed.

(** ** [_parse_response] *)

Lemma parse_rate_spec (currencies : list string) (rates : dict)
    (rate : pyval) :
  parse_rate currencies rates rate =
  match rate with
  | PDict r => Ok (parse_rate_dict currencies rates r)
  | _ => Raise AttributeError
  end.
Proof.
  destruct rate; try reflexivity.
  unfold parse_rate, parse_rate_dict, quote_of; simpl.
  destruct (dict_lookup "currency" d) as [[]|]; simpl; try reflexivity.
  destruct (existsb (String.eqb s) currencies); reflexivity.
Qed.

Lemma parse_rate_Raise currencies rates rate e :
  parse_rate currencies rates rate = Raise e -> e = AttributeError.
Proof. rewrite parse_rate_spec. destruct rate; congruence. Qed.

Lemma parse_rates_Raise currencies items : forall rates e,
  parse_rates currencies rates items = Raise e -> e = AttributeError.
Proof.
  induction items as [|rate items IH]; simpl; intros rates e H.
  - discriminate.
  - apply bind_Raise in H as [H|(r & _ & H)].
    + eapply parse_rate_Raise; eauto.
    + eapply IH; eauto.
Qed.

Lemma parse_response_Raise data date currencies e :
  _parse_response data date currencies = Raise e -> shape_error e.
Proof.
  unfold _parse_response, shape_error. intros H.
  apply bind_Raise in H as [H|(xs & _ & H)].
  { left. eapply py_get_Raise; eauto. }
  apply bind_Raise in H as [H|(items & _ & H)].
  { right. eapply py_iter_Raise; eauto. }
  apply bind_Raise in H as [H|(rates & _ & H)].
  { left. eapply parse_rates_Raise; eauto. }
  discriminate.
Qed.

(** The keys [_parse_response] writes are requested currencies. *)
Lemma parse_rate_dict_keys currencies rates r x :
  In x (dict_keys (parse_rate_dict currencies rates r)) ->
  In x currencies \/ In x (dict_keys rates).
Proof.
  unfold parse_rate_dict.
  destruct (dict_lookup "currency" r) as [[]|]; auto.
  destruct (existsb (String.eqb s) currencies) eqn:E; auto.
  intros H. apply dict_set_keys in H as [->|H]; auto.
  left. now apply py_in_In.
Qed.

Lemma parse_rates_keys currencies items : forall rates out x,
  parse_rates currencies rates items = Ok out ->
  In x (dict_keys out) -> In x currencies \/ In x (dict_keys rates).
Proof.
  induction items as [|rate items IH]; simpl; intros rates out x H Hx.
  - injection H as <-. auto.
  - apply bind_Ok in H as (rates' & H1 & H2).
    destruct (IH _ _ _ H2 Hx) as [Hc|Hk]; auto.
    rewrite parse_rate_spec in H1. destruct rate; try discriminate.
    injection H1 as <-. eapply parse_rate_dict_keys; eauto.
Qed.

Lemma parse_response_Ok data date currencies d :
  _parse_response data date currencies = Ok d ->
  d = [] \/ daily date currencies d.
Proof.
  unfold _parse_response. intros H.
  apply bind_Ok in H as (xs & _ & H).
  apply bind_Ok in H as (items & _ & H).
  apply bind_Ok in H as (rates & Hr & H).
  injection H as <-. destruct rates as [|kv rates'] eqn:E; simpl; auto.
  right. exists (kv :: rates'). repeat split; try discriminate.
  apply Forall_forall. intros x Hx. rewrite <- E in Hr.
  destruct (parse_rates_keys _ _ _ _ x Hr) as [Hc|[]]; auto.
  now rewrite E.
Qed.

(** ** [fetch_rates] *)

(** What [fetch_rates] does, by what the request meets. *)
Lemma fetch_rates_spec remote date currencies :
  fetch_rates remote date currencies =
  match remote date with
  | ConnectionFailed => Ok []
  | TimedOut => Raise TimeoutError
  | Responded status body =>
      if 400 <=? status then Ok []
      else match response_json body with
           | Raise e => if is_ClientError e then Ok [] else Raise e
           | Ok data =>
               try_except (_parse_response data date currencies)
                 is_ClientError (fun _ => Ok [])
           end
  end.
Proof.
  unfold fetch_rates. destruct (remote date) as [| |status body]; simpl; auto.
  unfold raise_for_status. destruct (400 <=? status); simpl; auto.
  destruct (response_json body); reflexivity.
Qed.

Lemma try_except_parse data date currencies :
  try_except (_parse_response data date currencies) is_ClientError
    (fun _ => Ok []) = _parse_response data date currencies.
Proof.
  destruct (_parse_response data date currencies) eqn:E; simpl; auto.
  destruct (parse_response_Raise _ _ _ _ E) as [-> | ->]; reflexivity.
Qed.





Lemma fetch_rates_Ok remote date currencies d :
  fetch_rates remote date currencies = Ok d ->
  d = [] \/ daily date currencies d.
Proof.
  rewrite fetch_rates_spec.
  destruct (remote date) as [| |status body]; try congruence.
  - intros [= <-]; auto.
  - destruct (400 <=? status); [intros [= <-]; auto|].
    destruct (response_json body) as [data|e].
    + rewrite try_except_parse. apply parse_response_Ok.
    + destruct (is_ClientError e); [intros [= <-]; auto | discriminate].
Qed.

(** C1 (the code at failing inputs): [except aiohttp.ClientError] turns a
    failed connection and a status of 500 into the empty mapping, but a
    response of status 200 whose body is not JSON, a request that times
    out, a body whose bytes are not text and a body of another shape than a
    dict are not caught: [fetch_rates] raises to its caller and returns no
    mapping. *)
Theorem fetch_rates_lets_failures_through :
  forall (date : string) (currencies : list string),
    fetch_rates (fun _ => ConnectionFailed) date currencies = Ok []
    /\ fetch_rates (fun _ => Responded 500 Malformed) date currencies = Ok []
    /\ fetch_rates (fun _ => Responded 200 Malformed) date currencies
       = Raise JSONDecodeError
    /\ fetch_rates (fun _ => TimedOut) date currencies = Raise TimeoutError
    /\ fetch_rates (fun _ => Responded 200 NotUnicode) date currencies
       = Raise UnicodeDecodeError
    /\ fetch_rates (fun _ => Responded 200 (Decoded (PList []))) date
         currencies = Raise AttributeError.
Proof.
  intros date currencies. repeat split; reflexivity.
Qed.

(** ** [gather] *)

Lemma first_failure_None {A : Type} finish (tasks : list (result A)) :
  forall i, first_failure finish i tasks = None ->
            tasks = map Ok (returned tasks).
Proof.
  induction tasks as [|[a|e] ts IH]; simpl; intros i H; auto.
  - f_equal. eauto.
  - destruct (first_failure finish (S i) ts) as [[r e']|]; try discriminate.
    destruct (Nat.ltb r (finish i)); discriminate.
Qed.

Lemma first_failure_Some {A : Type} finish (tasks : list (result A)) :
  forall i r e, first_failure finish i tasks = Some (r, e) ->
                In (Raise e) tasks.
Proof.
  induction tasks as [|[a|e0] ts IH]; simpl; intros i r e H.
  - discriminate.
  - right. eauto.
  - destruct (first_failure finish (S i) ts) as [[r' e']|] eqn:E.
    + destruct (Nat.ltb r' (finish i)); injection H as <- <-; eauto.
    + injection H as <- <-. auto.
Qed.

Lemma first_failure_all_Ok {A : Type} finish (l : list A) :
  forall i, first_failure finish i (map Ok l) = None.
Proof. induction l; simpl; auto. Qed.

Lemma returned_map_Ok {A : Type} (l : list A) : returned (map Ok l) = l.
Proof. induction l; simpl; congruence. Qed.

Lemma gather_Ok {A : Type} finish (tasks : list (result A)) rs :
  gather finish tasks = Ok rs -> tasks = map Ok rs.
Proof.
  unfold gather. destruct (first_failure finish 0 tasks) as [[r e]|] eqn:E.
  - discriminate.
  - intros [= <-]. eapply first_failure_None; eauto.
Qed.

Lemma gather_Raise {A : Type} finish (tasks : list (result A)) e :
  gather finish tasks = Raise e -> In (Raise e) tasks.
Proof.
  unfold gather. destruct (first_failure finish 0 tasks) as [[r e']|] eqn:E.
  - intros [= <-]. eapply first_failure_Some; eauto.
  - discriminate.
Qed.

Lemma gather_map_Ok {A : Type} finish (l : list A) :
  gather finish (map Ok l) = Ok l.
Proof.
  unfold gather. now rewrite first_failure_all_Ok, returned_map_Ok.
Qed.

(** ** [get_rates_for_days] *)

Lemma enumerate_map_seq {A : Type} (f : nat -> A) (n : nat) : forall a,
  combine (seq a (List.length (map f (seq a n)))) (map f (seq a n))
  = map (fun i => (i, f i)) (seq a n).
Proof.
  induction n as [|n IH]; simpl; intros a; auto.
  f_equal. apply IH.
Qed.

Section ServiceFacts.

Variable now : nat -> Z.
Variable finish : nat -> nat.
Context {fetcher : CurrencyRatesFetcher}.

(** Task [i] fetches the date [i] days before the [i]-th reading of the
    clock. *)
Lemma fetch_all_window days currencies :
  fetch_all (window now days) currencies
  = map (fun i => fetcher_fetch_rates i (strftime (now i - Z.of_nat i))
                    currencies)
        (range days).
Proof.
  unfold fetch_all, window, enumerate, range.
  rewrite enumerate_map_seq, map_map. reflexivity.
Qed.

Lemma get_rates_out_of_range days currencies :
  days < 1 \/ 10 < days ->
  get_rates_for_days now finish days currencies
  = Raise (ValueError validation_message).
Proof.
  intros H. unfold get_rates_for_days.
  destruct (days <? 1) eqn:E1; auto. destruct (10 <? days) eqn:E2; auto.
  apply Z.ltb_ge in E1, E2. lia.
Qed.

Lemma get_rates_in_range days currencies :
  1 <= days <= 10 ->
  get_rates_for_days now finish days currencies
  = (results <- gather finish (fetch_all (window now days) currencies) ;;
     Ok (filter truthy results)).
Proof.
  intros H. unfold get_rates_for_days.
  destruct (days <? 1) eqn:E1; [apply Z.ltb_lt in E1; lia|].
  destruct (10 <? days) eqn:E2; [apply Z.ltb_lt in E2; lia|].
  reflexivity.
Qed.

(** An exception of [get_rates_for_days] is the validation error or the
    exception of one of the fetches. *)
Lemma get_rates_Raise days currencies e :
  get_rates_for_days now finish days currencies = Raise e ->
  (e = ValueError validation_message /\ (days < 1 \/ 10 < days))
  \/ (1 <= days <= 10 /\
      exists i, (i < Z.to_nat days)%nat /\
        fetcher_fetch_rates i (strftime (now i - Z.of_nat i)) currencies
        = Raise e).
Proof.
  intros H. destruct (Z_lt_dec days 1) as [H1|H1];
    [|destruct (Z_lt_dec 10 days) as [H2|H2]].
  - rewrite get_rates_out_of_range in H by auto. injection H as <-. auto.
  - rewrite get_rates_out_of_range in H by auto. injection H as <-. auto.
  - right. split; [lia|]. rewrite get_rates_in_range in H by lia.
    apply bind_Raise in H as [H|(rs & _ & H)]; [|discriminate].
    apply gather_Raise in H. rewrite fetch_all_window in H.
    apply in_map_iff in H as (i & Hi & Hin).
    exists i. split; auto. unfold range in Hin.
    apply in_seq in Hin. lia.
Qed.

(** A returned report is made of the fetched mappings that are not
    empty, in the order of the dates. *)
Lemma get_rates_Ok days currencies out :
  get_rates_for_days now finish days currencies = Ok out ->
  1 <= days <= 10 /\
  exists results,
    map (fun i => fetcher_fetch_rates i (strftime (now i - Z.of_nat i))
                    currencies) (range days) = map Ok results
    /\ out = filter truthy results.
Proof.
  intros H. destruct (Z_lt_dec days 1) as [H1|H1];
    [|destruct (Z_lt_dec 10 days) as [H2|H2]].
  - rewrite get_rates_out_of_range in H by auto. discriminate.
  - rewrite get_rates_out_of_range in H by auto. discriminate.
  - split; [lia|]. rewrite get_rates_in_range in H by lia.
    apply bind_Ok in H as (rs & Hg & H). injection H as <-.
    apply gather_Ok in Hg. rewrite fetch_all_window in Hg. eauto.
Qed.

End ServiceFacts.

(** ** The report of the PrivatBank fetcher *)

Lemma map_Ok_Forall2 {A : Type} (f : nat -> result A) (l : list nat) :
  forall rs, map f l = map Ok rs -> Forall2 (fun i r => f i = Ok r) l rs.
Proof.
  induction l as [|i l IH]; intros [|r rs] H; simpl in H; try discriminate.
  - constructor.
  - injection H as H1 H2. constructor; auto.
Qed.

Lemma map_Ok_exists {A : Type} (f : nat -> result A) (l : list nat) :
  (forall i, In i l -> exists r, f i = Ok r) ->
  exists rs, map f l = map Ok rs.
Proof.
  induction l as [|i l IH]; intros H.
  - exists []. reflexivity.
  - destruct (H i) as [r Hr]; [now left|].
    destruct IH as [rs Hrs]; [intros; apply H; now right|].
    exists (r :: rs). simpl. congruence.
Qed.

Lemma seq_StronglySorted (n : nat) : forall a,
  StronglySorted lt (seq a n).
Proof.
  induction n as [|n IH]; intros a; simpl; constructor; auto.
  apply Forall_forall. intros x Hx. apply in_seq in Hx. lia.
Qed.

(** Dropping the empty mappings keeps, in order, the dates that matched. *)
Lemma filter_truthy_daily (date_of : nat -> string) currencies :
  forall idx results,
    Forall2 (fun i d => d = [] \/ daily (date_of i) currencies d)
            idx results ->
    exists offsets,
      Forall2 (fun d i => daily (date_of i) currencies d)
              (filter truthy results) offsets
      /\ (forall i, In i offsets -> In i idx)
      /\ (StronglySorted lt idx -> StronglySorted lt offsets).
Proof.
  induction 1 as [|i d idx results Hd _ (offsets & HF & Hin & Hs)].
  - exists []. split; [constructor|]. split; auto; intros _; constructor.
  - destruct Hd as [->|Hd]; simpl.
    + exists offsets. split; auto. split.
      * intros j Hj. right. auto.
      * intros Hsorted. apply StronglySorted_inv in Hsorted. tauto.
    + assert (Ht : truthy d = true)
        by (destruct Hd as (rates & -> & _); reflexivity).
      rewrite Ht. exists (i :: offsets). split; [|split].
      * constructor; auto.
      * intros j [<-|Hj]; [now left | right; auto].
      * intros Hsorted. apply StronglySorted_inv in Hsorted as [Hs1 Hs2].
        constructor; auto.
        rewrite Forall_forall in *. intros j Hj. auto.
Qed.

(** C2, as the spec states it, fails: the date with no matching currency is
    dropped, and the report steps from 03.11.2026 to 01.11.2026. *)
Lemma get_rates_for_days_gap :
  exists out,
    get_rates_for_days (fun _ => 739923) (fun i => i)
      (fetcher := PrivatBankCurrencyRatesFetcher gap_remote)
      3 ["EUR"; "USD"] = Ok out
    /\ report_dates out = ["03.11.2026"; "01.11.2026"]
    /\ ~ consecutive_from 739923 (report_dates out).
Proof.
  eexists. split; [vm_compute; reflexivity|].
  split; [reflexivity|].
  unfold consecutive_from. vm_compute. discriminate.
Qed.

Section PrivatBankReport.

Variable now : nat -> Z.
Variable finish : nat -> nat.
Variable remote : nat -> string -> http_outcome.

Let service :=
  get_rates_for_days now finish
    (fetcher := PrivatBankCurrencyRatesFetcher remote).

(** The mappings fetched for a returned report, one per date of the
    window, each empty or a [daily] mapping of its date. *)
Lemma privat_results days currencies out :
  service days currencies = Ok out ->
  exists results,
    Forall2 (fun i r =>
               fetch_rates (remote i) (strftime (now i - Z.of_nat i))
                 currencies = Ok r)
            (range days) results
    /\ Forall2 (fun i d =>
                  d = [] \/ daily (strftime (now i - Z.of_nat i))
                              currencies d)
               (range days) results
    /\ out = filter truthy results.
Proof.
  intros H. apply get_rates_Ok in H as (_ & results & Hmap & ->).
  simpl in Hmap. apply map_Ok_Forall2 in Hmap.
  exists results. repeat split; auto.
  eapply Forall2_impl; [|exact Hmap].
  intros i d Hd. simpl in Hd. eapply fetch_rates_Ok; eauto.
Qed.

(** C2 (amended): for [days] in [1,10], when the readings of the clock
    fall on one day [today] and no fetch raises, [get_rates_for_days]
    returns a report of at most [days] entries; its dates are
    [today - i] for offsets [i] below [days] that increase strictly from
    entry to entry (a date with no match leaves a gap, and the first
    entry need not be today), each entry maps its date to a mapping that
    is not empty, and every currency key is a requested currency. *)
Theorem get_rates_for_days_report :
  forall (today days : Z) (currencies : list string),
    1 <= days <= 10 ->
    (forall i, (i < Z.to_nat days)%nat -> now i = today) ->
    (forall i, (i < Z.to_nat days)%nat ->
       exists d, fetch_rates (remote i) (strftime (today - Z.of_nat i))
                   currencies = Ok d) ->
    exists (out : list dict) (offsets : list nat),
      service days currencies = Ok out
      /\ (List.length out <= Z.to_nat days)%nat
      /\ StronglySorted lt offsets
      /\ Forall (fun i => (i < Z.to_nat days)%nat) offsets
      /\ Forall2 (fun d i =>
                    daily (strftime (today - Z.of_nat i)) currencies d)
                 out offsets.
Proof.
  intros today days currencies Hdays Hnow Hfetch.
  set (f := fun i => fetch_rates (remote i) (strftime (now i - Z.of_nat i))
                       currencies).
  destruct (map_Ok_exists f (range days)) as [results Hres].
  { intros i Hi. unfold range in Hi. apply in_seq in Hi.
    unfold f. rewrite Hnow by lia. apply Hfetch. lia. }
  assert (Hrun : service days currencies = Ok (filter truthy results)).
  { unfold service. rewrite get_rates_in_range by lia.
    rewrite fetch_all_window. simpl. fold f. rewrite Hres.
    now rewrite gather_map_Ok. }
  destruct (privat_results _ _ _ Hrun) as (results' & Hf1 & Hf2 & Hout).
  destruct (filter_truthy_daily
              (fun i => strftime (now i - Z.of_nat i)) currencies
              _ _ Hf2) as (offsets & HF & Hin & Hsorted).
  assert (Hbound : Forall (fun i => (i < Z.to_nat days)%nat) offsets).
  { apply Forall_forall. intros i Hi. apply Hin in Hi.
    unfold range in Hi. apply in_seq in Hi. lia. }
  exists (filter truthy results), offsets. split; [exact Hrun|].
  split; [|split; [|split]]; auto.
  - rewrite Hout. eapply Nat.le_trans; [apply filter_length_le|].
    apply Forall2_length in Hf1. rewrite <- Hf1.
    unfold range. now rewrite length_seq.
  - apply Hsorted. apply seq_StronglySorted.
  - rewrite Hout. clear - HF Hbound Hnow.
    induction HF as [|d i ds offs Hd _ IH]; constructor.
    + rewrite <- (Hnow i); auto. now inversion Hbound.
    + apply IH. now inversion Hbound.
Qed.


(** C8: every entry of a returned report maps its date to a mapping
    with at least one currency; the report is the list of the fetched
    mappings that are not empty, so a date whose fetch matched no
    requested currency has no entry. *)
Theorem report_has_no_empty_day :
  forall (days : Z) (currencies : list string) (out : list dict),
    service days currencies = Ok out ->
    Forall (fun d => exists date rates,
              d = [(date, PDict rates)] /\ rates <> []) out
    /\ ~ In [] out
    /\ exists results,
         Forall2 (fun i r =>
                    fetch_rates (remote i) (strftime (now i - Z.of_nat i))
                      currencies = Ok r)
                 (range days) results
         /\ out = filter truthy results.
Proof.
  intros days currencies out H.
  destruct (privat_results _ _ _ H) as (results & Hf1 & Hf2 & ->).
  assert (HF : Forall (fun d => exists date rates,
                 d = [(date, PDict rates)] /\ rates <> [])
                 (filter truthy results)).
  { clear - Hf2. induction Hf2 as [|i d idx rs Hd _ IH]; simpl.
    - constructor.
    - destruct Hd as [->|(rates & -> & Hne & _)]; simpl; auto.
      constructor; eauto. }
  split; [exact HF|]. split; [|eauto].
  intros Hin. rewrite Forall_forall in HF.
  destruct (HF _ Hin) as (date & rates & Hd & _). discriminate.
Qed.

End PrivatBankReport.

Lemma get_rates_for_days_report_witness :
  exists (out : list dict) (offsets : list nat),
    get_rates_for_days (fun _ => 739923) (fun i => i)
      (fetcher := PrivatBankCurrencyRatesFetcher gap_remote)
      3 ["EUR"; "USD"] = Ok out
    /\ (List.length out <= Z.to_nat 3)%nat
    /\ StronglySorted lt offsets
    /\ Forall (fun i => (i < Z.to_nat 3)%nat) offsets
    /\ Forall2 (fun d i =>
                  daily (strftime (739923 - Z.of_nat i)) ["EUR"; "USD"] d)
               out offsets.
Proof.
  apply (get_rates_for_days_report (fun _ => 739923) (fun i => i) gap_remote
           739923 3 ["EUR"; "USD"]).
  - lia.
  - reflexivity.
  - intros i Hi. change (Z.to_nat 3) with 3%nat in Hi.
    destruct i as [|[|[|i]]]; [| | |lia]; vm_compute; eauto.
Defined.

Lemma report_has_no_empty_day_witness :
  get_rates_for_days (fun _ => 739923) (fun i => i)
    (fetcher := PrivatBankCurrencyRatesFetcher gap_remote)
    3 ["EUR"; "USD"] = Ok gap_report
  /\ Forall (fun d => exists date rates,
               d = [(date, PDict rates)] /\ rates <> []) gap_report
  /\ ~ In [] gap_report.
Proof.
  assert (H : get_rates_for_days (fun _ => 739923) (fun i => i)
                (fetcher := PrivatBankCurrencyRatesFetcher gap_remote)
                3 ["EUR"; "USD"] = Ok gap_report)
    by (vm_compute; reflexivity).
  split; [exact H|].
  destruct (report_has_no_empty_day (fun _ => 739923) (fun i => i) gap_remote
              3 ["EUR"; "USD"] gap_report H) as (H1 & H2 & _).
  split; assumption.
Defined.

(** ** The handler *)

(** What the [try] statement of the handler does with a second token. *)
Lemma try_statement_cases (w : world) (token : str) :
  except_ValueError (try_body w token) (send msg_format) =
  match py_int token with
  | None => send msg_format
  | Some days =>
      if (1 <=? days) && (days <=? 10) then
        match handler_rates w days with
        | Ok rates =>
            {| replies := [json_dumps rates];
               logged := [audit_line w days];
               raised := None |}
        | Raise e => if is_ValueError e then send msg_format else raise e
        end
      else send msg_range
  end.
Proof.
  unfold try_body, int, handler_rates.
  destruct (py_int token) as [days|]; [|reflexivity].
  destruct ((1 <=? days) && (days <=? 10)); [|reflexivity].
  destruct (get_rates_for_days _ _ _ _) as [rates|e]; [reflexivity|].
  unfold except_ValueError; simpl. destruct (is_ValueError e); reflexivity.
Qed.

(** What the handler does with a message, by its tokens. *)
Lemma on_message_cases (w : world) (message : str) :
  on_message w message =
  match split (strip message) with
  | [] => raise IndexError
  | first :: others =>
      if str_eqb first (lit "exchange") then
        match others with
        | [] => send msg_prompt
        | [token] => except_ValueError (try_body w token) (send msg_format)
        | _ => silent
        end
      else send msg_invalid
  end.
Proof.
  unfold on_message. destruct (split (strip message)) as [|first [|t [|]]];
    reflexivity.
Qed.

Lemma str_eqb_spec (a b : str) : reflect (a = b) (str_eqb a b).
Proof.
  revert b. induction a as [|x a IH]; intros [|y b]; simpl;
    try (constructor; congruence).
  destruct (N.eqb_spec x y) as [->|Hne]; simpl.
  - destruct (IH b) as [->|Hne]; constructor; congruence.
  - constructor. congruence.
Qed.

Lemma lstrip_spaces (s : str) :
  forallb is_space s = true -> lstrip s = [].
Proof.
  unfold lstrip. induction s as [|c s IH]; simpl; auto.
  destruct (is_space c); simpl; auto. discriminate.
Qed.




Lemma andthen_send (text : string) (b : effects) :
  andthen (send text) b =
  {| replies := text :: replies b; logged := logged b; raised := raised b |}.
Proof. reflexivity. Qed.

Lemma send_answers_and_awaits worlds k message rest text :
  on_message (worlds k) message = send text ->
  answers_and_awaits worlds k message rest text.
Proof.
  intros H. split; [exact H|]. simpl. rewrite H. apply andthen_send.
Qed.

(** C4 (the code at the failing input): with a third token the handler
    sends nothing at all, neither the format error nor any other reply, and
    goes on to the next message. *)
Theorem extra_token_gets_no_reply :
  forall (worlds : nat -> world) (k : nat) (rest : list str),
    on_message (worlds k) (lit "exchange 3 4")
      = {| replies := []; logged := []; raised := None |}
    /\ exchange_command_from worlds k (lit "exchange 3 4" :: rest)
       = exchange_command_from worlds (S k) rest.
Proof.
  intros worlds k rest. split; [reflexivity|].
  simpl. change (on_message (worlds k) (lit "exchange 3 4")) with silent.
  unfold andthen; simpl.
  destruct (exchange_command_from worlds (S k) rest); reflexivity.
Qed.

(** C5: the reply to each invalid input is the string of the source, and
    the loop then serves the next message: a first token other than
    [exchange]; [exchange] alone; [exchange N] with an integer [N] outside
    [1,10]. *)
Theorem invalid_input_replies :
  forall (worlds : nat -> world) (k : nat) (message : str)
         (rest : list str),
    (forall first others,
       split (strip message) = first :: others -> first <> lit "exchange" ->
       answers_and_awaits worlds k message rest
         "Invalid command. Use 'exchange <days>' to get rates.")
    /\ (split (strip message) = [lit "exchange"] ->
        answers_and_awaits worlds k message rest
          "Please provide the number of days (1-10) for the exchange rates.")
    /\ (forall token n,
          split (strip message) = [lit "exchange"; token] ->
          py_int token = Some n -> n < 1 \/ 10 < n ->
          answers_and_awaits worlds k message rest
            "Error: The number of days must be between 1 and 10.").
Proof.
  intros worlds k message rest. split; [|split].
  - intros first others Hs Hne. apply send_answers_and_awaits.
    rewrite on_message_cases, Hs.
    destruct (str_eqb_spec first (lit "exchange")); [contradiction|reflexivity].
  - intros Hs. apply send_answers_and_awaits.
    rewrite on_message_cases, Hs. reflexivity.
  - intros token n Hs Hn Hout. apply send_answers_and_awaits.
    rewrite on_message_cases, Hs. simpl.
    rewrite try_statement_cases, Hn.
    replace ((1 <=? n) && (n <=? 10)) with false; [reflexivity|].
    symmetry. apply andb_false_iff.
    destruct Hout; [left; apply Z.leb_gt | right; apply Z.leb_gt]; lia.
Qed.

Lemma invalid_input_replies_witness :
  answers_and_awaits (fun _ => {| now := fun _ => 739923; finish := fun i => i;
                                  remote := gap_remote; stamp := "t" |})
    0 (lit "banana") [lit "exchange"]
    "Invalid command. Use 'exchange <days>' to get rates."
  /\ answers_and_awaits (fun _ => {| now := fun _ => 739923;
                                     finish := fun i => i;
                                     remote := gap_remote; stamp := "t" |})
       0 (lit " exchange ") []
       "Please provide the number of days (1-10) for the exchange rates."
  /\ answers_and_awaits (fun _ => {| now := fun _ => 739923;
                                     finish := fun i => i;
                                     remote := gap_remote; stamp := "t" |})
       0 (lit "exchange 11") [lit "exchange 0"]
       "Error: The number of days must be between 1 and 10.".
Proof.
  split; [|split].
  - apply (invalid_input_replies _ 0%nat (lit "banana") [lit "exchange"])
      with (first := lit "banana") (others := []).
    + reflexivity.
    + discriminate.
  - apply (invalid_input_replies _ 0%nat (lit " exchange ") []). reflexivity.
  - apply (invalid_input_replies _ 0%nat (lit "exchange 11")
             [lit "exchange 0"])
      with (token := lit "11") (n := 11).
    + reflexivity.
    + reflexivity.
    + right. lia.
Defined.



(** C9: a message that is empty or made of white space only, ASCII or
    not, has no token; reading the first token raises [IndexError], nothing
    is sent or logged, and the loop ends there: the messages that follow are
    not served. *)
Theorem blank_message_raises :
  forall (worlds : nat -> world) (k : nat) (message : str)
         (rest : list str),
    forallb is_space message = true ->
    split (strip message) = []
    /\ on_message (worlds k) message
       = {| replies := []; logged := []; raised := Some IndexError |}
    /\ exchange_command_from worlds k (message :: rest)
       = {| replies := []; logged := []; raised := Some IndexError |}.
Proof.
  intros worlds k message rest Hblank.
  assert (Hs : split (strip message) = []).
  { unfold strip. now rewrite lstrip_spaces. }
  assert (Hm : on_message (worlds k) message = raise IndexError).
  { now rewrite on_message_cases, Hs. }
  split; [exact Hs|]. split; [exact Hm|].
  simpl. now rewrite Hm.
Qed.

Lemma blank_message_raises_witness :
  forallb is_space blank_message = true
  /\ exchange_command (fun _ => calm_world) [blank_message; lit "exchange 1"]
     = {| replies := []; logged := []; raised := Some IndexError |}.
Proof.
  split; [reflexivity|].
  apply (blank_message_raises (fun _ => calm_world) 0%nat blank_message
           [lit "exchange 1"]).
  reflexivity.
Defined.

(** C10: the [except ValueError] clause covers the fetching too: when
    the day count was parsed and lies in [1,10] and the service raises a
    [ValueError] (the JSON decode error of a fetch is one), the reply is
    the format error, no line is logged, and the loop goes on. *)
Theorem fetch_ValueError_reported_as_format_error :
  forall (worlds : nat -> world) (k : nat) (message : str)
         (rest : list str) (token : str) (n : Z) (e : exn),
    split (strip message) = [lit "exchange"; token] ->
    py_int token = Some n -> 1 <= n <= 10 ->
    handler_rates (worlds k) n = Raise e ->
    is_ValueError e = true ->
    answers_and_awaits worlds k message rest
      "Error: Please provide a valid number of days.".
Proof.
  intros worlds k message rest token n e Hs Hn Hrange He Hv.
  apply send_answers_and_awaits.
  rewrite on_message_cases, Hs. simpl.
  rewrite try_statement_cases, Hn, He, Hv.
  replace ((1 <=? n) && (n <=? 10)) with true; [reflexivity|].
  symmetry. apply andb_true_iff. split; apply Z.leb_le; lia.
Qed.

Lemma fetch_ValueError_reported_as_format_error_witness :
  handler_rates garbled_world 3 = Raise JSONDecodeError
  /\ answers_and_awaits (fun _ => garbled_world) 0 (lit "exchange 3")
       [lit "exchange"] "Error: Please provide a valid number of days.".
Proof.
  split; [reflexivity|].
  apply (fetch_ValueError_reported_as_format_error (fun _ => garbled_world)
           0%nat (lit "exchange 3") [lit "exchange"] (lit "3") 3
           JSONDecodeError).
  - reflexivity.
  - reflexivity.
  - lia.
  - reflexivity.
  - reflexivity.
Defined.

(** ** The quote of a currency *)

(** C7, as the spec states it, fails: for an element without
    [purchaseRate] the quote still has the key [purchase], bound to
    [None]. *)
Lemma missing_rate_key_is_present :
  exists d quote,
    _parse_response
      (PDict [("exchangeRate",
               PList [PDict [("currency", PStr "USD");
                             ("saleRate", PFloat "41.5")]])])
      "03.11.2026" ["USD"] = Ok d
    /\ report_quote d "03.11.2026" "USD" = Some quote
    /\ has_key "purchase" quote = true
    /\ py_get quote "purchase" (PInt 0) = Ok PNone.
Proof.
  eexists. eexists. split; [reflexivity|]. split; [reflexivity|].
  split; reflexivity.
Qed.

Lemma parse_rates_app currencies l1 : forall l2 rates,
  parse_rates currencies rates (l1 ++ l2)
  = (rates' <- parse_rates currencies rates l1 ;;
     parse_rates currencies rates' l2).
Proof.
  induction l1 as [|x l1 IH]; intros l2 rates; simpl; auto.
  destruct (parse_rate currencies rates x); simpl; auto.
Qed.

(** Elements of another currency leave the quote of [c] as it is. *)
Lemma parse_rates_other currencies c items : forall rates out,
  (forall r, In (PDict r) items ->
             dict_lookup "currency" r <> Some (PStr c)) ->
  parse_rates currencies rates items = Ok out ->
  dict_lookup c out = dict_lookup c rates.
Proof.
  induction items as [|x items IH]; simpl; intros rates out Hother H.
  - now injection H as <-.
  - apply bind_Ok in H as (rates' & H1 & H2).
    rewrite (IH _ _ (fun r Hr => Hother r (or_intror Hr)) H2).
    rewrite parse_rate_spec in H1. destruct x; try discriminate.
    injection H1 as <-. unfold parse_rate_dict.
    specialize (Hother d (or_introl eq_refl)).
    destruct (dict_lookup "currency" d) as [[]|]; auto.
    destruct (existsb (String.eqb s) currencies); auto.
    apply dict_lookup_set_other. congruence.
Qed.

(** C7 (amended): for an element of the array whose currency is
    requested (the last element of that currency, later ones overwrite),
    the quote in the result always has both keys [sale] and [purchase]; a
    field the element lacks is bound to [None], not left out and not
    zero. *)
Theorem missing_rate_is_None :
  forall (data : pyval) (date : string) (currencies : list string)
         (before after : list pyval) (rate : dict) (c : string) (out : dict),
    py_get data "exchangeRate" (PList [])
      = Ok (PList (before ++ PDict rate :: after)) ->
    dict_lookup "currency" rate = Some (PStr c) ->
    In c currencies ->
    (forall r, In (PDict r) after ->
               dict_lookup "currency" r <> Some (PStr c)) ->
    _parse_response data date currencies = Ok out ->
    report_quote out date c
    = Some (PDict
        [("sale",
          match dict_lookup "saleRate" rate with
          | Some v => v | None => PNone end);
         ("purchase",
          match dict_lookup "purchaseRate" rate with
          | Some v => v | None => PNone end)]).
Proof.
  intros data date currencies before after rate c out Hget Hc Hin Hother H.
  unfold _parse_response in H. rewrite Hget in H. simpl in H.
  apply bind_Ok in H as (rates & Hr & H).
  rewrite parse_rates_app in Hr.
  apply bind_Ok in Hr as (rates1 & _ & Hr). simpl in Hr.
  apply bind_Ok in Hr as (rates2 & H2 & Hr).
  rewrite parse_rate_spec in H2. injection H2 as <-.
  apply parse_rates_other with (c := c) in Hr; auto.
  unfold parse_rate_dict in Hr. rewrite Hc in Hr.
  apply In_py_in in Hin. simpl in Hin. rewrite Hin in Hr.
  rewrite dict_lookup_set_same in Hr.
  destruct rates as [|kv rates']; [discriminate|].
  injection H as <-. unfold report_quote. simpl.
  rewrite String.eqb_refl. exact Hr.
Qed.

Lemma missing_rate_is_None_witness :
  report_quote
    [("03.11.2026",
      PDict [("USD", PDict [("sale", PFloat "41.5"); ("purchase", PNone)])])]
    "03.11.2026" "USD"
  = Some (PDict [("sale", PFloat "41.5"); ("purchase", PNone)]).
Proof.
  apply (missing_rate_is_None
           (PDict [("exchangeRate",
                    PList [PDict [("currency", PStr "USD");
                                  ("saleRate", PFloat "41.5")];
                           PDict [("currency", PStr "CHF")]])])
           "03.11.2026" ["USD"] []
           [PDict [("currency", PStr "CHF")]]
           [("currency", PStr "USD"); ("saleRate", PFloat "41.5")] "USD").
  - reflexivity.
  - reflexivity.
  - left. reflexivity.
  - intros r [H|[]]. injection H as <-. discriminate.
  - reflexivity.
Defined.


(* ===================================================================== *)
(** * Further properties of the code *)
(* ===================================================================== *)

(** ** [_parse_response]: shapes, keys and order *)

Lemma parse_rates_well_shaped currencies items : forall rates,
  match parse_rates currencies rates items with
  | Ok _ => forallb is_dict items = true
  | Raise e => forallb is_dict items = false /\ e = AttributeError
  end.
Proof.
  induction items as [|x items IH]; intros rates; simpl; auto.
  rewrite parse_rate_spec. destruct x; simpl; auto.
  apply IH.
Qed.

(** X1: [_parse_response] returns exactly on a well-shaped body.  A body
    that is not a dict, or holds an element that is not a dict, raises
    [AttributeError]; an [exchangeRate] that cannot be iterated raises
    [TypeError]; the currencies asked for play no part in this. *)
Theorem parse_response_raises_on_shape :
  forall (data : pyval) (date : string) (currencies : list string),
    match _parse_response data date currencies with
    | Ok _ => well_shaped data = true
    | Raise e =>
        well_shaped data = false
        /\ (e = TypeError <->
            exists xs, py_get data "exchangeRate" (PList []) = Ok xs
                       /\ py_iter xs = Raise TypeError)
        /\ (e = AttributeError \/ e = TypeError)
    end.
Proof.
  intros data date currencies. unfold _parse_response, well_shaped.
  destruct (py_get data "exchangeRate" (PList [])) as [xs|e] eqn:Hget; simpl.
  - destruct (py_iter xs) as [items|e] eqn:Hiter; simpl.
    + pose proof (parse_rates_well_shaped currencies items []) as H.
      destruct (parse_rates currencies [] items) as [rates|e]; simpl; auto.
      destruct H as [H ->]. split; auto. split; auto.
      split; [discriminate|]. intros (xs' & [= <-] & H'). congruence.
    + apply py_iter_Raise in Hiter as Heq. subst e. split; auto.
      split; auto. split; auto. intros _. eauto.
  - apply py_get_Raise in Hget as Heq. subst e. split; auto.
    split; auto. split; [discriminate|]. intros (xs & H & _). discriminate.
Qed.

(** X2: with no currency asked for, [_parse_response] never builds an
    entry: it returns the empty mapping whenever it returns. *)
Theorem parse_response_no_currency :
  forall (data : pyval) (date : string) (out : dict),
    _parse_response data date [] = Ok out -> out = [].
Proof.
  intros data date out H.
  destruct (parse_response_Ok _ _ _ _ H) as [->|(rates & -> & Hne & Hk)]; auto.
  destruct rates as [|[k v] rates]; [contradiction|].
  simpl in Hk. apply Forall_inv in Hk. destruct Hk.
Qed.

Lemma parse_response_no_currency_witness :
  _parse_response (PDict [("exchangeRate",
                           PList [PDict [("currency", PStr "USD")]])])
    "03.11.2026" [] = Ok []
  /\ ([] : dict) = [].
Proof.
  split; [reflexivity|].
  apply (parse_response_no_currency
           (PDict [("exchangeRate", PList [PDict [("currency", PStr "USD")]])])
           "03.11.2026" []).
  reflexivity.
Defined.

Lemma parse_rate_dict_requested currencies rates r :
  parse_rate_dict currencies rates r =
  match requested_currency currencies (PDict r) with
  | Some c => dict_set c (quote_of r) rates
  | None => rates
  end.
Proof.
  unfold parse_rate_dict, requested_currency.
  destruct (dict_lookup "currency" r) as [[]|]; auto.
  destruct (existsb (String.eqb s) currencies); auto.
Qed.

Lemma dict_keys_set (k : string) (v : pyval) (d : dict) :
  dict_keys (dict_set k v d) = add_once (dict_keys d) k.
Proof.
  unfold add_once. induction d as [|[k' v'] d' IH]; simpl; auto.
  destruct (String.eqb k k'); simpl; auto.
  rewrite IH. destruct (existsb (String.eqb k) (dict_keys d')); auto.
Qed.

Lemma parse_rates_key_order currencies items : forall rates out,
  parse_rates currencies rates items = Ok out ->
  dict_keys out
  = fold_left add_once (requested_in currencies items) (dict_keys rates).
Proof.
  induction items as [|x items IH]; simpl; intros rates out H.
  - now injection H as <-.
  - apply bind_Ok in H as (rates' & H1 & H2).
    rewrite (IH _ _ H2). rewrite parse_rate_spec in H1.
    destruct x; try discriminate. injection H1 as <-.
    rewrite parse_rate_dict_requested.
    destruct (requested_currency currencies (PDict d)) as [c|]; simpl; auto.
    now rewrite dict_keys_set.
Qed.

Lemma add_once_NoDup (acc : list string) (c : string) :
  NoDup acc -> NoDup (add_once acc c).
Proof.
  intros H. unfold add_once.
  destruct (existsb (String.eqb c) acc) eqn:E; auto.
  apply NoDup_app; auto.
  - constructor; [intros []|constructor].
  - intros x Hx [->|[]].
    assert (existsb (String.eqb x) acc = true); [|congruence].
    apply existsb_exists. exists x. split; auto. apply String.eqb_refl.
Qed.

Lemma fold_add_once_NoDup (l : list string) : forall acc,
  NoDup acc -> NoDup (fold_left add_once l acc).
Proof.
  induction l as [|c l IH]; simpl; intros acc H; auto.
  apply IH. now apply add_once_NoDup.
Qed.

Lemma add_once_In (acc : list string) (c x : string) :
  In x (add_once acc c) <-> x = c \/ In x acc.
Proof.
  unfold add_once. destruct (existsb (String.eqb c) acc) eqn:E.
  - split; auto. intros [->|H]; auto.
    apply existsb_exists in E as (y & Hy & Heq).
    apply String.eqb_eq in Heq. now subst.
  - rewrite in_app_iff. simpl. intuition.
Qed.

Lemma fold_add_once_In (l : list string) : forall acc x,
  In x (fold_left add_once l acc) <-> In x l \/ In x acc.
Proof.
  induction l as [|c l IH]; simpl; intros acc x.
  - intuition.
  - rewrite IH, add_once_In. intuition.
Qed.

Lemma requested_in_In currencies items c :
  In c (requested_in currencies items) <->
  In c currencies
  /\ exists r, In (PDict r) items
               /\ dict_lookup "currency" r = Some (PStr c).
Proof.
  induction items as [|x items IH]; simpl.
  - split; [intros [] | intros (_ & r & [] & _)].
  - assert (Hx : requested_currency currencies x = Some c <->
                 In c currencies /\ exists r, x = PDict r /\
                   dict_lookup "currency" r = Some (PStr c)).
    { unfold requested_currency. destruct x as [| | | | |l|r];
        try (split; [discriminate | intros (_ & r & H & _); discriminate]).
      destruct (dict_lookup "currency" r) as [[]|] eqn:E;
        try (split; [discriminate
                    | intros (_ & r' & [= <-] & H); congruence]).
      destruct (existsb (String.eqb s) currencies) eqn:Ex.
      - split.
        + intros [= <-]. split; [now apply py_in_In | eauto].
        + intros (_ & r' & [= <-] & H). congruence.
      - split; [discriminate|].
        intros (Hin & r' & [= <-] & H). rewrite E in H. injection H as ->.
        apply In_py_in in Hin. simpl in Hin. congruence. }
    destruct (requested_currency currencies x) as [c'|] eqn:E; simpl.
    + rewrite IH. split.
      * intros [->|(Hin & r & Hr & Hc)].
        -- destruct (proj1 Hx eq_refl) as (Hin & r & -> & Hc).
           split; eauto.
        -- split; eauto.
      * intros (Hin & r & [Hr|Hr] & Hc).
        -- left. assert (Some c' = Some c) by (apply Hx; eauto).
           congruence.
        -- right. split; eauto.
    + rewrite IH. split.
      * intros (Hin & r & Hr & Hc). split; eauto.
      * intros (Hin & r & [Hr|Hr] & Hc); [|split; eauto].
        assert (None = Some c) by (apply Hx; eauto). discriminate.
Qed.

Lemma parse_response_list data date currencies items :
  py_get data "exchangeRate" (PList []) = Ok (PList items) ->
  _parse_response data date currencies
  = (rates <- parse_rates currencies [] items ;;
     Ok (if truthy rates then [(date, PDict rates)] else [])).
Proof. intros H. unfold _parse_response. now rewrite H. Qed.

(** X3: the currencies of a parsed response are the requested currencies
    the array carries, each once, in the order of their first element in
    the array (not in the order they were requested); when the array
    carries none, the result is the empty mapping. *)
Theorem parse_response_key_order :
  forall (data : pyval) (date : string) (currencies : list string)
         (items : list pyval) (out : dict),
    py_get data "exchangeRate" (PList []) = Ok (PList items) ->
    _parse_response data date currencies = Ok out ->
    (out = [] /\ requested_in currencies items = [])
    \/ (exists rates,
          out = [(date, PDict rates)]
          /\ dict_keys rates
             = first_occurrences (requested_in currencies items)
          /\ NoDup (dict_keys rates)).
Proof.
  intros data date currencies items out Hget H.
  rewrite (parse_response_list _ _ _ _ Hget) in H.
  apply bind_Ok in H as (rates & Hr & H). injection H as <-.
  pose proof (parse_rates_key_order _ _ _ _ Hr) as Hk. simpl in Hk.
  destruct rates as [|kv rates'] eqn:E; simpl.
  - left. split; auto. simpl in Hk.
    destruct (requested_in currencies items) as [|c l]; auto.
    exfalso. assert (Hin : In c (fold_left add_once (c :: l) []))
      by (apply fold_add_once_In; left; now left).
    rewrite <- Hk in Hin. destruct Hin.
  - right. exists (kv :: rates'). repeat split; auto.
    rewrite Hk. apply fold_add_once_NoDup. constructor.
Qed.

Lemma parse_response_key_order_witness :
  exists rates,
    [("03.11.2026", sample_quotes)] = [("03.11.2026", PDict rates)]
    /\ dict_keys rates = ["USD"; "EUR"].
Proof.
  destruct (parse_response_key_order
              (PDict [("exchangeRate",
                       PList [PDict [("currency", PStr "USD");
                                     ("saleRate", PFloat "41.5");
                                     ("purchaseRate", PFloat "40.9")];
                              PDict [("currency", PStr "GBP")];
                              PDict [("currency", PStr "EUR");
                                     ("saleRate", PFloat "48.1")];
                              PDict [("currency", PStr "USD");
                                     ("saleRate", PFloat "41.5");
                                     ("purchaseRate", PFloat "40.9")]])])
              "03.11.2026" ["EUR"; "USD"] _ [("03.11.2026", sample_quotes)]
              eq_refl eq_refl) as [[H _]|(rates & H1 & H2 & _)].
  - discriminate H.
  - exists rates. split; [exact H1 | exact H2].
Defined.

(** X4: a currency has a quote in the parsed response exactly when it
    was requested and some element of the array carries it. *)
Theorem parse_response_has_quote :
  forall (data : pyval) (date : string) (currencies : list string)
         (items : list pyval) (out : dict) (c : string),
    py_get data "exchangeRate" (PList []) = Ok (PList items) ->
    _parse_response data date currencies = Ok out ->
    ((exists quote, report_quote out date c = Some quote)
     <-> In c currencies
         /\ exists r, In (PDict r) items
                      /\ dict_lookup "currency" r = Some (PStr c)).
Proof.
  intros data date currencies items out c Hget H.
  rewrite (parse_response_list _ _ _ _ Hget) in H.
  apply bind_Ok in H as (rates & Hr & H). injection H as <-.
  pose proof (parse_rates_key_order _ _ _ _ Hr) as Hk. simpl in Hk.
  rewrite <- requested_in_In.
  assert (Hin : In c (dict_keys rates) <->
                In c (requested_in currencies items)).
  { rewrite Hk, fold_add_once_In. simpl. tauto. }
  rewrite <- Hin.
  assert (Hl : forall d : dict,
             (exists q, dict_lookup c d = Some q) <-> In c (dict_keys d)).
  { induction d as [|[k v] d IH]; simpl.
    - split; [intros [q Hq]; discriminate | intros []].
    - destruct (String.eqb_spec c k) as [->|Hne].
      + split; eauto.
      + rewrite IH. split; auto. intros [Heq|Hd]; auto. congruence. }
  rewrite <- Hl. unfold report_quote.
  destruct rates as [|kv rates']; simpl.
  - split; intros [q Hq]; discriminate.
  - rewrite String.eqb_refl. reflexivity.
Qed.

Lemma parse_response_has_quote_witness :
  (exists quote,
     report_quote [("03.11.2026", sample_quotes)] "03.11.2026" "EUR"
     = Some quote)
  <-> In "EUR" ["EUR"; "USD"]
      /\ exists r,
           In (PDict r)
              [PDict [("currency", PStr "USD"); ("saleRate", PFloat "41.5");
                      ("purchaseRate", PFloat "40.9")];
               PDict [("currency", PStr "GBP"); ("saleRate", PFloat "54.0")];
               PDict [("currency", PStr "EUR"); ("saleRate", PFloat "48.1")]]
           /\ dict_lookup "currency" r = Some (PStr "EUR").
Proof.
  apply (parse_response_has_quote
           (PDict [("bank", PStr "PB");
                   ("exchangeRate",
                    PList [PDict [("currency", PStr "USD");
                                  ("saleRate", PFloat "41.5");
                                  ("purchaseRate", PFloat "40.9")];
                           PDict [("currency", PStr "GBP");
                                  ("saleRate", PFloat "54.0")];
                           PDict [("currency", PStr "EUR");
                                  ("saleRate", PFloat "48.1")]])])
           "03.11.2026" ["EUR"; "USD"]); reflexivity.
Defined.

Lemma parse_rates_filter_relevant currencies items : forall rates,
  forallb is_dict items = true ->
  parse_rates currencies rates items
  = parse_rates currencies rates (filter (relevant currencies) items).
Proof.
  induction items as [|x items IH]; simpl; intros rates H; auto.
  apply andb_true_iff in H as [Hx H].
  destruct x; try discriminate. unfold relevant.
  rewrite parse_rate_spec, parse_rate_dict_requested.
  destruct (requested_currency currencies (PDict d)) as [c|] eqn:E; simpl.
  - rewrite parse_rate_spec, parse_rate_dict_requested, E. simpl. auto.
  - auto.
Qed.

(** X5: elements of other currencies are ignored: when every element of
    the array is a dict, the result is the one the array gives once the
    elements that carry no requested currency are taken out. *)
Theorem parse_response_ignores_other_currencies :
  forall (data data' : pyval) (date : string) (currencies : list string)
         (items : list pyval),
    py_get data "exchangeRate" (PList []) = Ok (PList items) ->
    py_get data' "exchangeRate" (PList [])
      = Ok (PList (filter (relevant currencies) items)) ->
    forallb is_dict items = true ->
    _parse_response data date currencies
    = _parse_response data' date currencies.
Proof.
  intros data data' date currencies items H H' Hd.
  rewrite (parse_response_list _ _ _ _ H), (parse_response_list _ _ _ _ H').
  now rewrite (parse_rates_filter_relevant _ _ _ Hd).
Qed.

Lemma parse_response_ignores_other_currencies_witness :
  _parse_response
    (PDict [("exchangeRate",
             PList [PDict [("currency", PStr "GBP")];
                    PDict [("currency", PStr "USD")];
                    PDict [("saleRate", PFloat "1.0")]])])
    "03.11.2026" ["EUR"; "USD"]
  = _parse_response
      (PDict [("exchangeRate", PList [PDict [("currency", PStr "USD")]])])
      "03.11.2026" ["EUR"; "USD"].
Proof.
  apply (parse_response_ignores_other_currencies
           _ _ "03.11.2026" ["EUR"; "USD"]
           [PDict [("currency", PStr "GBP")];
            PDict [("currency", PStr "USD")];
            PDict [("saleRate", PFloat "1.0")]]); reflexivity.
Defined.

(** ** [get_rates_for_days]: failures and the window *)

Lemma first_failure_exists {A : Type} finish (tasks : list (result A)) e :
  forall a, In (Raise e) tasks ->
            exists r e', first_failure finish a tasks = Some (r, e').
Proof.
  induction tasks as [|[x|e0] ts IH]; simpl; intros a H.
  - destruct H.
  - destruct H as [H|H]; [discriminate|]. eauto.
  - destruct (first_failure finish (S a) ts) as [[r e']|]; eauto.
    destruct (Nat.ltb r (finish a)); eauto.
Qed.

Lemma first_failure_rank {A : Type} finish (tasks : list (result A)) :
  forall a r e, first_failure finish a tasks = Some (r, e) ->
    exists j, nth_error tasks j = Some (Raise e) /\ r = finish (a + j)%nat.
Proof.
  induction tasks as [|[x|e0] ts IH]; simpl; intros a r e H.
  - discriminate.
  - destruct (IH _ _ _ H) as (j & Hj & ->).
    exists (S j). split; [exact Hj | f_equal; lia].
  - destruct (first_failure finish (S a) ts) as [[r' e']|] eqn:E.
    + destruct (Nat.ltb r' (finish a)); injection H as <- <-.
      * destruct (IH _ _ _ E) as (j & Hj & ->).
        exists (S j). split; [exact Hj | f_equal; lia].
      * exists 0%nat. split; [reflexivity | f_equal; lia].
    + injection H as <- <-. exists 0%nat.
      split; [reflexivity | f_equal; lia].
Qed.

(** The failing task that finishes before every other failing task gives
    the exception. *)
Lemma first_failure_earliest {A : Type} finish (tasks : list (result A)) :
  forall a k e,
    nth_error tasks k = Some (Raise e) ->
    (forall j e', j <> k -> nth_error tasks j = Some (Raise e') ->
                  (finish (a + k) < finish (a + j))%nat) ->
    first_failure finish a tasks = Some (finish (a + k)%nat, e).
Proof.
  induction tasks as [|t ts IH]; intros a k e Hk Hmin.
  - destruct k; discriminate.
  - destruct k as [|k]; simpl in Hk.
    + injection Hk as ->. simpl. rewrite Nat.add_0_r.
      destruct (first_failure finish (S a) ts) as [[r e']|] eqn:E; auto.
      destruct (first_failure_rank _ _ _ _ _ E) as (j & Hj & ->).
      specialize (Hmin (S j) e' (Nat.neq_succ_0 j) Hj).
      rewrite Nat.add_0_r in Hmin.
      replace (a + S j)%nat with (S a + j)%nat in Hmin by lia.
      destruct (Nat.ltb_spec (finish (S a + j)%nat) (finish a)); auto. lia.
    + assert (IHk : first_failure finish (S a) ts
                    = Some (finish (S a + k)%nat, e)).
      { apply IH; auto. intros j e' Hne Hj.
        replace (S a + k)%nat with (a + S k)%nat by lia.
        replace (S a + j)%nat with (a + S j)%nat by lia.
        apply (Hmin (S j) e'); auto. }
      replace (a + S k)%nat with (S a + k)%nat by lia.
      destruct t as [x|e0]; simpl; rewrite IHk; auto.
      specialize (Hmin 0%nat e0 (Nat.neq_0_succ k) eq_refl).
      rewrite Nat.add_0_r in Hmin.
      replace (a + S k)%nat with (S a + k)%nat in Hmin by lia.
      destruct (Nat.ltb_spec (finish (S a + k)%nat) (finish a)); auto. lia.
Qed.

Lemma nth_error_map_seq {A : Type} (f : nat -> A) (n i : nat) :
  (i < n)%nat -> nth_error (map f (seq 0 n)) i = Some (f i).
Proof.
  intros H. rewrite nth_error_map, nth_error_seq.
  destruct (Nat.ltb_spec i n); [reflexivity | lia].
Qed.

Lemma nth_error_map_seq_Some {A : Type} (f : nat -> A) (n i : nat) (x : A) :
  nth_error (map f (seq 0 n)) i = Some x -> (i < n)%nat /\ x = f i.
Proof.
  intros H. assert (Hi : (i < n)%nat).
  { assert (Hn : nth_error (map f (seq 0 n)) i <> None) by congruence.
    apply nth_error_Some in Hn. now rewrite length_map, length_seq in Hn. }
  split; auto. rewrite nth_error_map_seq in H by auto. congruence.
Qed.

Section ServiceFailures.

Variable now : nat -> Z.
Variable finish : nat -> nat.
Context {fetcher : CurrencyRatesFetcher}.

(** The fetch of task [i]. *)
Let fetch (currencies : list string) (i : nat) : result dict :=
  fetcher_fetch_rates i (strftime (now i - Z.of_nat i)) currencies.

(** X6: for [days] in [1,10] and any fetcher, [get_rates_for_days]
    raises exactly when one of its [days] fetches raises: one failing date
    loses the rates of all the other dates. *)
Theorem one_failing_fetch_fails_the_request :
  forall (days : Z) (currencies : list string),
    1 <= days <= 10 ->
    ((exists e, get_rates_for_days now finish days currencies = Raise e)
     <-> exists i e, (i < Z.to_nat days)%nat /\ fetch currencies i = Raise e).
Proof.
  intros days currencies Hdays. split.
  - intros [e H]. apply get_rates_Raise in H as [[_ H]|(_ & i & Hi & H)].
    + lia.
    + exists i, e. auto.
  - intros (i & e & Hi & H).
    rewrite get_rates_in_range by lia. rewrite fetch_all_window.
    assert (Hin : In (Raise e) (map (fetch currencies) (range days))).
    { apply in_map_iff. exists i. split; auto.
      unfold range. apply in_seq. lia. }
    unfold gather.
    destruct (first_failure_exists finish _ e 0%nat Hin) as (r & e' & Hff).
    unfold fetch in Hff. rewrite Hff. exists e'. reflexivity.
Qed.

(** X7: the exception that comes out of [get_rates_for_days] is the one
    of the failing fetch that finishes before every other failing fetch,
    whatever its place in the window. *)
Theorem earliest_failure_is_raised :
  forall (days : Z) (currencies : list string) (i : nat) (e : exn),
    1 <= days <= 10 ->
    (i < Z.to_nat days)%nat ->
    fetch currencies i = Raise e ->
    (forall j e', (j < Z.to_nat days)%nat -> j <> i ->
                  fetch currencies j = Raise e' ->
                  (finish i < finish j)%nat) ->
    get_rates_for_days now finish days currencies = Raise e.
Proof.
  intros days currencies i e Hdays Hi He Hmin.
  rewrite get_rates_in_range by lia. rewrite fetch_all_window.
  unfold gather, range. unfold fetch in He, Hmin.
  rewrite (first_failure_earliest finish _ 0%nat i e); auto.
  - rewrite nth_error_map_seq by auto. now f_equal.
  - intros j e' Hne Hj. apply nth_error_map_seq_Some in Hj as [Hlt Hj].
    simpl. apply (Hmin j e'); auto.
Qed.

(** X8: [datetime.now()] is read once for each date.  When midnight
    passes between the readings for offsets [i] and [i + 1], the window
    holds the date of offset [i] twice. *)
Theorem midnight_repeats_a_date :
  forall (days : Z) (i : nat),
    (S i < Z.to_nat days)%nat ->
    now (S i) = now i + 1 ->
    nth_error (window now days) i = Some (strftime (now i - Z.of_nat i))
    /\ nth_error (window now days) (S i)
       = Some (strftime (now i - Z.of_nat i)).
Proof.
  intros days i Hi Hnow. unfold window, range.
  rewrite !nth_error_map_seq by lia. split; auto.
  do 2 f_equal. rewrite Hnow. lia.
Qed.

End ServiceFailures.

Lemma one_failing_fetch_fails_the_request_witness :
  (exists e, handler_rates stalled_world 3 = Raise e)
  <-> exists i e, (i < Z.to_nat 3)%nat
        /\ fetch_rates (remote stalled_world i)
             (strftime (now stalled_world i - Z.of_nat i)) ["EUR"; "USD"]
           = Raise e.
Proof.
  apply (one_failing_fetch_fails_the_request (now stalled_world)
           (finish stalled_world)
           (fetcher := PrivatBankCurrencyRatesFetcher (remote stalled_world))
           3 ["EUR"; "USD"]).
  lia.
Defined.

Lemma earliest_failure_is_raised_witness :
  handler_rates racing_world 3 = Raise TimeoutError.
Proof.
  apply (earliest_failure_is_raised (now racing_world) (finish racing_world)
           (fetcher := PrivatBankCurrencyRatesFetcher (remote racing_world))
           3 ["EUR"; "USD"] 2%nat TimeoutError).
  - lia.
  - simpl. lia.
  - reflexivity.
  - intros j e' Hj Hne H. change (Z.to_nat 3) with 3%nat in Hj.
    destruct j as [|[|[|j]]]; simpl; lia.
Defined.

Lemma midnight_repeats_a_date_witness :
  nth_error (window (fun i => match i with O => 739923 | _ => 739924 end) 3)
    0 = Some "03.11.2026"
  /\ nth_error (window (fun i => match i with O => 739923 | _ => 739924 end)
                  3) 1 = Some "03.11.2026".
Proof.
  apply (midnight_repeats_a_date
           (fun i => match i with O => 739923 | _ => 739924 end) 3 0%nat).
  - simpl. lia.
  - reflexivity.
Defined.

(** ** The handler: replies, exceptions and the log *)

Lemma in_range_iff (n : Z) :
  (1 <=? n) && (n <=? 10) = true <-> 1 <= n <= 10.
Proof. rewrite andb_true_iff, !Z.leb_le. tauto. Qed.

Lemma fetch_rates_client_failure remote date currencies :
  client_failure (remote date) = true ->
  fetch_rates remote date currencies = Ok [].
Proof.
  rewrite fetch_rates_spec. unfold client_failure.
  destruct (remote date) as [| |status body]; try congruence.
  destruct (400 <=? status); simpl; auto.
  destruct body; simpl; congruence.
Qed.

(** X9: when every request fails with a client error, a valid
    [exchange N] is still served: the reply is the empty JSON array and the
    command is logged as executed. *)
Theorem outage_gives_empty_report :
  forall (w : world) (message token : str) (n : Z),
    split (strip message) = [lit "exchange"; token] ->
    py_int token = Some n -> 1 <= n <= 10 ->
    (forall i date, client_failure (remote w i date) = true) ->
    on_message w message
    = {| replies := ["[]"];
         logged := [stamp w ++ " - exchange " ++ string_of_Z n
                      ++ " days command executed" ++ newline];
         raised := None |}.
Proof.
  intros w message token n Hs Hn Hrange Hout.
  assert (Hrates : handler_rates w n = Ok []).
  { unfold handler_rates. rewrite get_rates_in_range by lia.
    rewrite fetch_all_window. simpl.
    rewrite (map_ext _ (fun _ => Ok ([] : dict)))
      by (intros i; apply fetch_rates_client_failure, Hout).
    rewrite <- (map_map (fun _ => ([] : dict)) Ok), gather_map_Ok. simpl.
    f_equal. induction (range n); simpl; auto. }
  rewrite on_message_cases, Hs. simpl.
  rewrite try_statement_cases, Hn, Hrates.
  rewrite (proj2 (in_range_iff n) Hrange). reflexivity.
Qed.

Lemma outage_gives_empty_report_witness :
  on_message outage_world (lit "exchange 10")
  = {| replies := ["[]"];
       logged := ["2026-11-03 10:15:00.250000 - exchange 10 days command executed"
                    ++ newline];
       raised := None |}.
Proof.
  apply (outage_gives_empty_report outage_world (lit "exchange 10")
           (lit "10") 10).
  - reflexivity.
  - reflexivity.
  - lia.
  - reflexivity.
Defined.

(** X10: an exception of the service that is not a [ValueError] (a
    timeout, a body of an unexpected shape) is not caught by the handler:
    nothing is sent, nothing is logged, and the loop of the connection ends
    with it, the later messages unserved. *)
Theorem other_exception_ends_connection :
  forall (worlds : nat -> world) (k : nat) (message : str)
         (rest : list str) (token : str) (n : Z) (e : exn),
    split (strip message) = [lit "exchange"; token] ->
    py_int token = Some n -> 1 <= n <= 10 ->
    handler_rates (worlds k) n = Raise e ->
    is_ValueError e = false ->
    on_message (worlds k) message
      = {| replies := []; logged := []; raised := Some e |}
    /\ exchange_command_from worlds k (message :: rest)
       = {| replies := []; logged := []; raised := Some e |}.
Proof.
  intros worlds k message rest token n e Hs Hn Hrange He Hv.
  assert (Hm : on_message (worlds k) message = raise e).
  { rewrite on_message_cases, Hs. simpl.
    rewrite try_statement_cases, Hn, He, Hv.
    now rewrite (proj2 (in_range_iff n) Hrange). }
  split; [exact Hm|]. simpl. now rewrite Hm.
Qed.

Lemma other_exception_ends_connection_witness :
  exchange_command (fun _ => stalled_world)
    [lit "exchange 2"; lit "exchange"]
  = {| replies := []; logged := []; raised := Some TimeoutError |}.
Proof.
  apply (other_exception_ends_connection (fun _ => stalled_world) 0%nat
           (lit "exchange 2") [lit "exchange"] (lit "2") 2 TimeoutError).
  - reflexivity.
  - reflexivity.
  - lia.
  - reflexivity.
  - reflexivity.
Defined.


(** X12: the handler never sends two replies to one message, and it
    logs a line only after a reply.  It sends none in exactly three cases:
    the message has no token; it has three tokens or more, the first being
    [exchange]; or it is a valid [exchange N] and the service raised an
    exception that is not a [ValueError]. *)
Theorem reply_count :
  forall (w : world) (message : str),
    (List.length (logged (on_message w message))
       <= List.length (replies (on_message w message)) <= 1)%nat
    /\ (replies (on_message w message) = [] <->
        split (strip message) = []
        \/ (exists t1 t2 more,
              split (strip message) = lit "exchange" :: t1 :: t2 :: more)
        \/ (exists token n e,
              split (strip message) = [lit "exchange"; token]
              /\ py_int token = Some n /\ 1 <= n <= 10
              /\ handler_rates w n = Raise e /\ is_ValueError e = false)).
Proof.
  intros w message. rewrite on_message_cases.
  destruct (split (strip message)) as [|first others].
  { simpl. split; [lia|]. split; auto. }
  destruct (str_eqb_spec first (lit "exchange")) as [->|Hne].
  2:{ simpl. split; [lia|]. split; [discriminate|].
      intros [H|[(t1 & t2 & more & H)|(token & n & e & H & _)]];
        try discriminate; injection H as H _; congruence. }
  destruct others as [|token [|extra others]].
  - simpl. split; [lia|]. split; [discriminate|].
    intros [H|[(t1 & t2 & more & H)|(token & n & e & H & _)]]; discriminate.
  - rewrite try_statement_cases.
    destruct (py_int token) as [n|] eqn:Hn.
    2:{ simpl. split; [lia|]. split; [discriminate|].
        intros [H|[(t1 & t2 & more & H)|(tok & n & e & H & Hn' & _)]];
          try discriminate. injection H as <-. congruence. }
    destruct ((1 <=? n) && (n <=? 10)) eqn:Hr.
    2:{ simpl. split; [lia|]. split; [discriminate|].
        intros [H|[(t1 & t2 & more & H)|(tok & n' & e & H & Hn' & Hr' & _)]];
          try discriminate. injection H as <-.
        rewrite Hn in Hn'. injection Hn' as <-.
        apply in_range_iff in Hr'. congruence. }
    apply in_range_iff in Hr.
    destruct (handler_rates w n) as [rates|e] eqn:He.
    { simpl. split; [lia|]. split; [discriminate|].
      intros [H|[(t1 & t2 & more & H)|(tok & n' & e & H & Hn' & _ & He' & _)]];
        try discriminate. injection H as <-.
      rewrite Hn in Hn'. injection Hn' as <-. congruence. }
    destruct (is_ValueError e) eqn:Hv.
    + simpl. split; [lia|]. split; [discriminate|].
      intros [H|[(t1 & t2 & more & H)|(tok & n' & e' & H & Hn' & _ & He' & Hv')]];
        try discriminate. injection H as <-.
      rewrite Hn in Hn'. injection Hn' as <-. congruence.
    + simpl. split; [lia|]. split; auto. intros _. right. right.
      exists token, n, e. auto.
  - simpl. split; [lia|]. split; auto. intros _. right. left. eauto.
Qed.

Lemma on_message_counts (w : world) (message : str) :
  (List.length (logged (on_message w message))
     <= List.length (replies (on_message w message)) <= 1)%nat.
Proof.
  rewrite on_message_cases.
  destruct (split (strip message)) as [|first others]; [simpl; lia|].
  destruct (str_eqb first (lit "exchange")); [|simpl; lia].
  destruct others as [|token [|extra others]]; try (simpl; lia).
  rewrite try_statement_cases.
  destruct (py_int token) as [n|]; [|simpl; lia].
  destruct ((1 <=? n) && (n <=? 10)); [|simpl; lia].
  destruct (handler_rates w n) as [rates|e]; [simpl; lia|].
  destruct (is_ValueError e); simpl; lia.
Qed.

(** X13: over a whole connection there are never more log lines than
    replies nor more replies than messages, whatever the messages and the
    worlds they are served in. *)
Theorem connection_counts :
  forall (worlds : nat -> world) (messages : list str) (k : nat),
    (List.length (logged (exchange_command_from worlds k messages))
       <= List.length (replies (exchange_command_from worlds k messages))
       <= List.length messages)%nat.
Proof.
  intros worlds messages.
  induction messages as [|message rest IH]; intros k; simpl; [lia|].
  pose proof (on_message_counts (worlds k) message) as Hm.
  specialize (IH (S k)). unfold andthen.
  destruct (raised (on_message (worlds k) message)); simpl.
  - lia.
  - rewrite !length_app. lia.
Qed.

(** ** The text of a message *)

Lemma split_from_nil_space (c : N) (s : str) :
  is_space c = true -> split_from [] (c :: s) = split_from [] s.
Proof. intros H. simpl. now rewrite H. Qed.

Lemma split_lstrip (s : str) : split (lstrip s) = split s.
Proof.
  unfold split, lstrip. induction s as [|c s IH]; auto.
  simpl lstrip_by. destruct (is_space c) eqn:E; auto.
  now rewrite split_from_nil_space.
Qed.

Lemma split_from_rstrip (s : str) : forall cur,
  split_from cur (rstrip s) = split_from cur s.
Proof.
  unfold rstrip. induction s as [|c s IH]; intros cur; auto.
  simpl rstrip_by. destruct (rstrip_by is_space s) as [|c' t] eqn:E.
  - destruct (is_space c) eqn:Ec.
    + simpl. rewrite Ec, <- IH. reflexivity.
    + simpl. rewrite Ec, <- IH. reflexivity.
  - simpl. destruct (is_space c); now rewrite <- IH.
Qed.

(** X14: [strip] changes nothing for the handler: the tokens of the
    stripped message are the tokens of the message, so white space before
    and after a command never matters. *)
Theorem strip_keeps_tokens :
  forall (w : world) (message : str),
    split (strip message) = split message
    /\ on_message w (strip message) = on_message w message.
Proof.
  intros w message.
  assert (H : forall s, split (strip s) = split s).
  { intros s. unfold strip, split. rewrite split_from_rstrip.
    apply split_lstrip. }
  split; [apply H|]. rewrite !on_message_cases. now rewrite !H.
Qed.

(** ** The command line *)

Lemma split_on_nonempty (sep : ascii) (s : string) : split_on sep s <> [].
Proof.
  destruct s as [|c s]; simpl; [discriminate|].
  destruct (Ascii.eqb c sep); [discriminate|].
  destruct (split_on sep s); discriminate.
Qed.

Lemma join_cons (sep x : string) (l : list string) :
  l <> [] -> join sep (x :: l) = x ++ sep ++ join sep l.
Proof. destruct l; [contradiction | reflexivity]. Qed.

Lemma split_on_join (sep : ascii) (s : string) :
  join (String sep EmptyString) (split_on sep s) = s.
Proof.
  induction s as [|c s IH]; simpl; auto.
  destruct (Ascii.eqb_spec c sep) as [->|Hne].
  - rewrite join_cons by apply split_on_nonempty.
    simpl. now rewrite IH.
  - destruct (split_on sep s) as [|piece pieces] eqn:E.
    + now apply split_on_nonempty in E.
    + destruct pieces as [|p ps]; simpl in *; now rewrite <- IH.
Qed.

Lemma split_on_pieces (sep : ascii) (s : string) :
  Forall (fun piece => ~ In sep (list_ascii_of_string piece))
         (split_on sep s).
Proof.
  induction s as [|c s IH]; simpl.
  - constructor; [intros []|constructor].
  - destruct (Ascii.eqb_spec c sep) as [->|Hne].
    + constructor; [intros []|exact IH].
    + destruct (split_on sep s) as [|piece pieces].
      * constructor; [|constructor]. simpl. intros [H|[]]. congruence.
      * inversion IH as [|? ? Hp Hps]; subst. constructor; auto.
        simpl. intros [H|H]; [congruence | auto].
Qed.

(** X15: [parse_args] returns exactly for a day count in [1,10] and
    otherwise exits with status 1.  The currencies it returns are the pieces
    of the option between its commas: there is at least one piece (an empty
    option gives one empty code), no piece holds a comma, the pieces are not
    trimmed or changed, and joined with commas they give the option back. *)
Theorem parse_args_result :
  forall (args : namespace),
    match parse_args args with
    | SystemExit code line =>
        code = 1 /\ line = msg_cli_days
        /\ (args_days args < 1 \/ 10 < args_days args)
    | Returned (days, currencies) =>
        days = args_days args /\ 1 <= days <= 10
        /\ currencies <> []
        /\ join "," currencies = args_currencies args
        /\ Forall (fun code => ~ In ","%char (list_ascii_of_string code))
                  currencies
    end.
Proof.
  intros args. unfold parse_args.
  destruct (args_days args <? 1) eqn:E1; simpl.
  { apply Z.ltb_lt in E1. auto. }
  destruct (10 <? args_days args) eqn:E2; simpl.
  { apply Z.ltb_lt in E2. auto. }
  apply Z.ltb_ge in E1, E2. split; auto. split; [lia|].
  split; [apply split_on_nonempty|].
  split; [apply (split_on_join ","%char) | apply split_on_pieces].
Qed.



(** ** Date keys *)

Lemma all_from_spec (f : Z -> bool) (n : nat) : forall z k,
  all_from n z f = true -> z <= k < z + Z.of_nat n -> f k = true.
Proof.
  induction n as [|n IH]; intros z k H Hk; [lia|].
  simpl in H. apply andb_true_iff in H as [Hz H].
  destruct (Z.eq_dec k z) as [->|Hne]; auto.
  apply (IH (z + 1)); auto. lia.
Qed.

Lemma two_digits_checked : all_from 31 1 two_digits_ok = true.
Proof. vm_compute. reflexivity. Qed.

Lemma years_checked : all_from (Z.to_nat 9000) 1000 year_ok = true.
Proof. vm_compute. reflexivity. Qed.

(** The parts of a date inside its cycle of 400 years. *)
Lemma era_parts (z : Z) :
  let doe := z mod 146097 in
  let yoe := (doe - doe / 1460 + doe / 36524 - doe / 146096) / 365 in
  let doy := doe - (365 * yoe + yoe / 4 - yoe / 100) in
  let mp := (5 * doy + 2) / 153 in
  let d := doy - (153 * mp + 2) / 5 + 1 in
  0 <= doe <= 146096 /\ 0 <= yoe <= 399 /\ 0 <= doy <= 365
  /\ 0 <= mp <= 11 /\ 1 <= d <= 31.
Proof.
  intros doe yoe doy mp d.
  assert (H1 : 0 <= doe <= 146096)
    by (subst doe; Z.div_mod_to_equations; lia).
  assert (H2 : 0 <= yoe <= 399)
    by (subst yoe; Z.div_mod_to_equations; lia).
  assert (H3 : 0 <= doy <= 365).
  { subst doy yoe. clearbody doe. clear - H1. Z.div_mod_to_equations. lia. }
  assert (H4 : 0 <= mp <= 11) by (subst mp; Z.div_mod_to_equations; lia).
  assert (H5 : 1 <= d <= 31).
  { subst d mp. clearbody doy. clear - H3. Z.div_mod_to_equations. lia. }
  auto.
Qed.

(** [ordinal_of_civil] undoes [civil_of_ordinal]. *)
Lemma civil_roundtrip (n : Z) :
  let '(y, m, d) := civil_of_ordinal n in
  ordinal_of_civil y m d = n /\ 1 <= m <= 12 /\ 1 <= d <= 31
  /\ (min_ordinal <= n <= max_ordinal -> 1000 <= y <= 9999).
Proof.
  unfold civil_of_ordinal.
  pose proof (era_parts (n + 305)) as H. cbv zeta in H.
  set (z := n + 305) in *.
  set (era := z / 146097) in *.
  set (doe := z mod 146097) in *.
  set (yoe := (doe - doe / 1460 + doe / 36524 - doe / 146096) / 365) in *.
  set (doy := doe - (365 * yoe + yoe / 4 - yoe / 100)) in *.
  set (mp := (5 * doy + 2) / 153) in *.
  set (d := doy - (153 * mp + 2) / 5 + 1) in *.
  destruct H as (H1 & H2 & H3 & H4 & H5).
  assert (Hz : z = 146097 * era + doe)
    by (subst era doe; apply Z.div_mod; lia).
  cbv zeta.
  set (m := if mp <? 10 then mp + 3 else mp - 9).
  assert (Hm : 1 <= m <= 12 /\ (if 2 <? m then m - 3 else m + 9) = mp
               /\ (if m <=? 2 then 1 else 0) = (if mp <? 10 then 0 else 1)).
  { subst m. destruct (Z.ltb_spec mp 10).
    - destruct (Z.ltb_spec 2 (mp + 3)); destruct (Z.leb_spec (mp + 3) 2);
        simpl; lia.
    - destruct (Z.ltb_spec 2 (mp - 9)); destruct (Z.leb_spec (mp - 9) 2);
        simpl; lia. }
  destruct Hm as (Hm1 & Hm2 & Hm3).
  split; [|split; [auto|split; [auto|]]].
  - unfold ordinal_of_civil. rewrite Hm2.
    assert (Hy : (if m <=? 2
                  then yoe + era * 400 + (if m <=? 2 then 1 else 0) - 1
                  else yoe + era * 400 + (if m <=? 2 then 1 else 0))
                 = yoe + era * 400).
    { destruct (m <=? 2); lia. }
    rewrite Hy.
    assert (Hq : (yoe + era * 400) / 400 = era)
      by (Z.div_mod_to_equations; lia).
    assert (Hr : (yoe + era * 400) mod 400 = yoe)
      by (Z.div_mod_to_equations; lia).
    rewrite Hq, Hr. subst d doy. lia.
  - unfold min_ordinal, max_ordinal. intros Hn. rewrite Hm3.
    assert (He : 2 <= era <= 24) by lia.
    assert (Hlow : era = 2 -> 200 <= yoe + (if mp <? 10 then 0 else 1)).
    { intros E. assert (Hd : 72989 <= doe) by lia.
      assert (Hy : 199 <= yoe)
        by (subst yoe; clearbody doe; Z.div_mod_to_equations; lia).
      destruct (Z.eq_dec yoe 199) as [E9|]; [|destruct (mp <? 10); lia].
      assert (Hdoy : 306 <= doy)
        by (subst doy; rewrite E9; change (199 / 4) with 49;
            change (199 / 100) with 1; lia).
      assert (Hmp : 10 <= mp)
        by (subst mp; clearbody doy; Z.div_mod_to_equations; lia).
      destruct (Z.ltb_spec mp 10); lia. }
    assert (Hhigh : era = 24 -> yoe + (if mp <? 10 then 0 else 1) <= 399).
    { intros E. assert (Hd : doe <= 146036) by lia.
      destruct (Z.eq_dec yoe 399) as [E9|]; [|destruct (mp <? 10); lia].
      assert (Hdoy : doy <= 305)
        by (subst doy; rewrite E9; change (399 / 4) with 99;
            change (399 / 100) with 3; lia).
      assert (Hmp : mp <= 9)
        by (subst mp; clearbody doy; Z.div_mod_to_equations; lia).
      destruct (Z.ltb_spec mp 10); lia. }
    destruct (mp <? 10); lia.
Qed.

Lemma two_digits_text (k : Z) :
  1 <= k <= 31 ->
  exists a b, zero_pad 2 (string_of_Z k) = String a (String b EmptyString)
              /\ read_digits 0 (String a (String b EmptyString)) = Some k.
Proof.
  intros Hk.
  assert (H : two_digits_ok k = true)
    by (apply (all_from_spec _ _ _ _ two_digits_checked); lia).
  unfold two_digits_ok in H.
  destruct (zero_pad 2 (string_of_Z k)) as [|a [|b [|c s]]];
    cbv beta iota in H; try discriminate H.
  destruct (read_digits 0 (String a (String b EmptyString))) as [v|] eqn:E;
    try discriminate H.
  apply Z.eqb_eq in H. subst v. exists a, b. split; [reflexivity | exact E].
Qed.

Lemma year_text (y : Z) :
  1000 <= y <= 9999 ->
  String.length (zero_pad 4 (string_of_Z y)) = 4%nat
  /\ read_digits 0 (zero_pad 4 (string_of_Z y)) = Some y.
Proof.
  intros Hy.
  assert (H : year_ok y = true)
    by (apply (all_from_spec _ _ _ _ years_checked); lia).
  unfold year_ok in H. apply andb_true_iff in H as [Hl H].
  apply Nat.eqb_eq in Hl. split; auto.
  destruct (read_digits 0 (zero_pad 4 (string_of_Z y))) as [v|];
    try discriminate H.
  apply Z.eqb_eq in H. now subst v.
Qed.

(** A date key reads back to its day and has ten characters. *)
Lemma strptime_strftime (n : Z) :
  min_ordinal <= n <= max_ordinal ->
  strptime (strftime n) = Some n /\ String.length (strftime n) = 10%nat.
Proof.
  intros Hn. unfold strftime.
  pose proof (civil_roundtrip n) as H.
  destruct (civil_of_ordinal n) as [[y m] d].
  destruct H as (Hord & Hm & Hd & Hy). specialize (Hy Hn).
  destruct (two_digits_text d Hd) as (d1 & d2 & -> & Hpd).
  destruct (two_digits_text m) as (m1 & m2 & -> & Hpm); [lia|].
  destruct (year_text y Hy) as (Hl & Hpy).
  change (String d1 (String d2 EmptyString) ++ "."
            ++ String m1 (String m2 EmptyString) ++ "."
            ++ zero_pad 4 (string_of_Z y))
    with (String d1 (String d2 (String "." (String m1 (String m2
            (String "." (zero_pad 4 (string_of_Z y)))))))).
  split.
  - unfold strptime. rewrite Hpd, Hpm, Hpy. now rewrite Hord.
  - cbn [String.length]. now rewrite Hl.
Qed.

Lemma strftime_inj (n1 n2 : Z) :
  min_ordinal <= n1 <= max_ordinal -> min_ordinal <= n2 <= max_ordinal ->
  strftime n1 = strftime n2 -> n1 = n2.
Proof.
  intros H1 H2 E.
  destruct (strptime_strftime n1 H1) as [E1 _].
  destruct (strptime_strftime n2 H2) as [E2 _].
  rewrite E in E1. congruence.
Qed.

(** The dates of the mappings kept in a report. *)
Lemma kept_dates (f : nat -> result dict) (date_of : nat -> string)
    (currencies : list string) :
  (forall i d, f i = Ok d -> d = [] \/ daily (date_of i) currencies d) ->
  forall idx results,
    Forall2 (fun i d => f i = Ok d) idx results ->
    forall s, In s (report_dates (filter truthy results)) ->
              exists i d, In i idx /\ s = date_of i /\ f i = Ok d /\ d <> [].
Proof.
  intros Hshape. induction 1 as [|i d idx results Hd _ IH]; intros s Hs.
  - destruct Hs.
  - simpl in Hs. destruct (Hshape i d Hd) as [->|(rates & -> & _)].
    + simpl in Hs. destruct (IH s Hs) as (j & d' & Hj & H).
      exists j, d'. split; [now right | exact H].
    + simpl in Hs. destruct Hs as [<-|Hs].
      * exists i, [(date_of i, PDict rates)].
        repeat split; auto; [now left | discriminate].
      * destruct (IH s Hs) as (j & d' & Hj & H).
        exists j, d'. split; [now right | exact H].
Qed.

Lemma kept_dates_NoDup (f : nat -> result dict) (date_of : nat -> string)
    (currencies : list string) :
  (forall i d, f i = Ok d -> d = [] \/ daily (date_of i) currencies d) ->
  forall idx results,
    Forall2 (fun i d => f i = Ok d) idx results ->
    NoDup idx ->
    (forall i j, In i idx -> In j idx -> date_of i = date_of j -> i = j) ->
    NoDup (report_dates (filter truthy results)).
Proof.
  intros Hshape. induction 1 as [|i d idx results Hd HF IH]; intros Hnd Hinj.
  - constructor.
  - inversion Hnd as [|? ? Hni Hnd']; subst.
    assert (IH' : NoDup (report_dates (filter truthy results))).
    { apply IH; auto. intros a b Ha Hb. apply Hinj; now right. }
    simpl. destruct (Hshape i d Hd) as [->|(rates & -> & _)]; simpl; auto.
    constructor; auto. intros Hin.
    destruct (kept_dates f date_of currencies Hshape _ _ HF _ Hin)
      as (j & d' & Hj & Heq & _).
    assert (i = j) by (apply Hinj; [now left | now right | exact Heq]).
    subst j. contradiction.
Qed.

(** X17: when the readings of the clock fall on one day, in the years
    1000 to 9999, the window of [get_rates_for_days] holds [days] dates,
    all different, each of ten characters: no date is asked for twice. *)
Theorem window_dates_distinct :
  forall (now : nat -> Z) (today days : Z),
    1 <= days <= 10 ->
    (forall i, (i < Z.to_nat days)%nat -> now i = today) ->
    min_ordinal + 9 <= today <= max_ordinal ->
    List.length (window now days) = Z.to_nat days
    /\ NoDup (window now days)
    /\ Forall (fun date => String.length date = 10%nat) (window now days).
Proof.
  intros now today days Hdays Hnow Htoday. unfold window, range.
  assert (Hw : map (fun i => strftime (now i - Z.of_nat i))
                   (seq 0 (Z.to_nat days))
               = map (fun i => strftime (today - Z.of_nat i))
                     (seq 0 (Z.to_nat days))).
  { apply map_ext_in. intros i Hi. apply in_seq in Hi.
    rewrite Hnow by lia. reflexivity. }
  rewrite Hw. split; [now rewrite length_map, length_seq|]. split.
  - apply NoDup_map_NoDup_ForallPairs; [|apply seq_NoDup].
    intros i j Hi Hj E. apply in_seq in Hi, Hj.
    apply strftime_inj in E; lia.
  - apply Forall_forall. intros date Hd.
    apply in_map_iff in Hd as (i & <- & Hi). apply in_seq in Hi.
    apply strptime_strftime. lia.
Qed.

Lemma window_dates_distinct_witness :
  List.length (window (fun _ => 739923) 10) = Z.to_nat 10
  /\ NoDup (window (fun _ => 739923) 10)
  /\ Forall (fun date => String.length date = 10%nat)
            (window (fun _ => 739923) 10).
Proof.
  apply (window_dates_distinct (fun _ => 739923) 739923 10).
  - lia.
  - reflexivity.
  - unfold min_ordinal, max_ordinal. lia.
Defined.

(** X18: under the same conditions the dates of a report of the
    PrivatBank fetcher are all different, and a date whose fetch returned
    the empty mapping is not among them. *)
Theorem report_dates_distinct :
  forall (now : nat -> Z) (finish : nat -> nat)
         (remote : nat -> string -> http_outcome)
         (today days : Z) (currencies : list string) (out : list dict),
    (forall i, (i < Z.to_nat days)%nat -> now i = today) ->
    min_ordinal + 9 <= today <= max_ordinal ->
    get_rates_for_days now finish
      (fetcher := PrivatBankCurrencyRatesFetcher remote) days currencies
      = Ok out ->
    NoDup (report_dates out)
    /\ (forall i, (i < Z.to_nat days)%nat ->
          fetch_rates (remote i) (strftime (today - Z.of_nat i)) currencies
            = Ok [] ->
          ~ In (strftime (today - Z.of_nat i)) (report_dates out)).
Proof.
  intros now finish remote today days currencies out Hnow Htoday H.
  apply get_rates_Ok in H as (Hdays & results & Hmap & ->).
  simpl in Hmap.
  set (f := fun i => fetch_rates (remote i) (strftime (today - Z.of_nat i))
                       currencies).
  assert (Hmap' : map f (range days) = map Ok results).
  { rewrite <- Hmap. apply map_ext_in. intros i Hi.
    unfold range in Hi. apply in_seq in Hi. unfold f.
    rewrite Hnow by lia. reflexivity. }
  apply map_Ok_Forall2 in Hmap'.
  assert (Hshape : forall i d, f i = Ok d ->
            d = [] \/ daily (strftime (today - Z.of_nat i)) currencies d).
  { intros i d Hd. eapply fetch_rates_Ok; eauto. }
  assert (Hinj : forall i j, In i (range days) -> In j (range days) ->
            strftime (today - Z.of_nat i) = strftime (today - Z.of_nat j) ->
            i = j).
  { intros i j Hi Hj E. unfold range in Hi, Hj. apply in_seq in Hi, Hj.
    apply strftime_inj in E; lia. }
  split.
  - apply (kept_dates_NoDup f (fun i => strftime (today - Z.of_nat i))
             currencies Hshape _ _ Hmap' (seq_NoDup _ _) Hinj).
  - intros i Hi Hempty Hin.
    destruct (kept_dates f _ currencies Hshape _ _ Hmap' _ Hin)
      as (j & d & Hj & Heq & Hd & Hne).
    assert (Hi' : In i (range days))
      by (unfold range; apply in_seq; lia).
    assert (i = j) by (apply (Hinj i j Hi' Hj Heq)).
    subst j. unfold f in Hd. congruence.
Qed.

Lemma report_dates_distinct_witness :
  NoDup (report_dates gap_report)
  /\ ~ In "02.11.2026" (report_dates gap_report).
Proof.
  destruct (report_dates_distinct (fun _ => 739923) (fun i => i) gap_remote
              739923 3 ["EUR"; "USD"] gap_report) as [H1 H2].
  - reflexivity.
  - unfold min_ordinal, max_ordinal. lia.
  - vm_compute. reflexivity.
  - split; [exact H1|]. apply (H2 1%nat); [simpl; lia | reflexivity].
Defined.

(** ** The two front ends *)


